(** * distutils.cygwinccompiler

    A shallow embedding of [distutils/cygwinccompiler.py]: the MSVC runtime
    lookup ([_msvcr_lookup], [get_msvcr]), the two compiler classes
    ([CygwinCCompiler], [Mingw32CCompiler]) and the helper functions
    [check_config_h] and [is_cygwincc].

    Conventions of the embedding:
    - a Python [str] or [bytes] value is a [string]: one [ascii] per code
      point (or byte) below 256.  In that range the regular expression
      class [\d] matches exactly the characters ['0'] to ['9'];
    - a Python [int] is a [Z];
    - a call that may raise returns a [result]; [None] is [option]'s [None];
    - code that talks to collaborators outside this module (the base
      compiler class, [subprocess], the file system) runs in the monad [M],
      which threads the history of the calls made so far. *)

From Stdlib Require Import ZArith Ascii String List Bool Lia DecimalString.
From stdpp Require Import base option list strings gmap.

Local Open Scope Z_scope.

(** ** Exceptions and results *)

Inductive exn : Type :=
| AttributeError
| KeyError (key : Z)
| ValueError (msg : string)
| OSError (strerror : option string)
| DistutilsPlatformError (msg : string)
| CCompilerError (msg : string)
| OtherError (name : string).

Inductive result (A : Type) : Type :=
| Return (a : A)
| Raise (e : exn).
Arguments Return {A} a.
Arguments Raise {A} e.

(** ** Strings *)

Module Str.

Fixpoint to_list (s : string) : list ascii :=
  match s with
  | EmptyString => []
  | String c s' => c :: to_list s'
  end.

Fixpoint all (p : ascii -> bool) (s : string) : bool :=
  match s with
  | EmptyString => true
  | String c s' => p c && all p s'
  end.

(** [s.startswith(p)] *)
Fixpoint startswith (p s : string) : bool :=
  match p, s with
  | EmptyString, _ => true
  | String a p', String b s' => if Ascii.eqb a b then startswith p' s' else false
  | String _ _, EmptyString => false
  end.

(** [sub in s] *)
Fixpoint contains (sub s : string) : bool :=
  startswith sub s ||
  match s with
  | EmptyString => false
  | String _ s' => contains sub s'
  end.

Fixpoint rev_onto (s acc : string) : string :=
  match s with
  | EmptyString => acc
  | String c s' => rev_onto s' (String c acc)
  end.

Definition rev (s : string) : string := rev_onto s EmptyString.

(** [s.endswith(p)] *)
Definition endswith (p s : string) : bool := startswith (rev p) (rev s).

(** The bytes that [bytes.strip()] removes: space, tab, newline, carriage
    return, vertical tab and form feed. *)
Definition is_space (c : ascii) : bool :=
  let n := N_of_ascii c in
  ((n =? 32) || ((9 <=? n) && (n <=? 13)))%N.

Fixpoint lstrip (s : string) : string :=
  match s with
  | EmptyString => EmptyString
  | String c s' => if is_space c then lstrip s' else s
  end.

Definition rstrip (s : string) : string := rev (lstrip (rev s)).

(** [s.strip()] *)
Definition strip (s : string) : string := rstrip (lstrip s).

(** [str(n)] for an [int] *)
Definition of_Z (n : Z) : string := NilZero.string_of_int (Z.to_int n).

(** [str(x)] for a value that is a string or [None] *)
Definition of_opt (o : option string) : string :=
  match o with
  | Some s => s
  | None => "None"
  end.

End Str.

(** ** Regular expressions made of single-character atoms *)

Module Re.

Inductive atom : Type :=
| Lit (c : ascii)
| Digit.

(** [\d] *)
Definition is_digit (c : ascii) : bool :=
  let n := N_of_ascii c in ((48 <=? n) && (n <=? 57))%N.

Definition atom_matches (a : atom) (c : ascii) : bool :=
  match a with
  | Lit l => Ascii.eqb l c
  | Digit => is_digit c
  end.

Definition literal (s : string) : list atom := map Lit (Str.to_list s).

(** [match_atoms p s]: the text matched by the atoms [p] at the start of
    [s], and what follows it. *)
Fixpoint match_atoms (p : list atom) (s : string) : option (string * string) :=
  match p with
  | [] => Some (EmptyString, s)
  | a :: p' =>
      match s with
      | EmptyString => None
      | String c s' =>
          if atom_matches a c then
            match match_atoms p' s' with
            | Some (m, rest) => Some (String c m, rest)
            | None => None
            end
          else None
      end
  end.

(** A pattern [pre(grp)]: atoms before the group, then the atoms of
    group 1.  [match_here] is the value of group 1 when the pattern
    matches at the start of [s]. *)
Definition match_here (pre grp : list atom) (s : string) : option string :=
  match match_atoms pre s with
  | Some (_, rest) =>
      match match_atoms grp rest with
      | Some (g, _) => Some g
      | None => None
      end
  | None => None
  end.

(** [re.search]: the leftmost position where the pattern matches; the
    match object is represented by its group 1, [None] is no match. *)
Fixpoint search (pre grp : list atom) (s : string) : option string :=
  match match_here pre grp s with
  | Some g => Some g
  | None =>
      match s with
      | EmptyString => None
      | String _ s' => search pre grp s'
      end
  end.

(** [m.group(1)]; on [None] the attribute lookup fails. *)
Definition group1 (m : option string) : result string :=
  match m with
  | Some g => Return g
  | None => Raise AttributeError
  end.

End Re.

(** [int(s)] on a string of decimal digits. *)
Definition int_of_digits (s : string) : Z :=
  fold_left (fun acc c => 10 * acc + (Z.of_N (N_of_ascii c) - 48)) (Str.to_list s) 0.

Definition result_bind {A B : Type} (r : result A) (k : A -> result B) : result B :=
  match r with
  | Return a => k a
  | Raise e => Raise e
  end.

(** ** The range-keyed table *)

Module RangeMap.

(** A stored value; [undefined_value] is the sentinel that closes the
    last range. *)
Inductive value (A : Type) : Type :=
| Defined (a : A)
| undefined_value.
Arguments Defined {A} a.
Arguments undefined_value {A}.

(** Modelled from the spec: the class [RangeMap] of
    [distutils/_collections.py] is not part of this file.  It is a
    dictionary from lower bounds to values, each key opening a half-open
    range that the next key closes; [left] builds it from the pairs
    written in the source. *)
Definition left {A : Type} (source : list (Z * value A)) : gmap Z (value A) :=
  list_to_map source.

(** Modelled from the spec: the greatest lower bound of [item] among the
    keys, the part of [RangeMap.__getitem__] that selects the range. *)
Definition glb (keys : list Z) (item : Z) : option Z :=
  foldr (fun k best =>
           if k <=? item then
             match best with
             | Some b => Some (Z.max b k)
             | None => Some k
             end
           else best) None keys.

(** Modelled from the spec: [RangeMap.__getitem__], the lookup by
    greatest lower bound.  An item below every key, or in the range
    opened by a key bound to [undefined_value], is outside all known
    ranges and raises [KeyError]. *)
Definition getitem {A : Type} (m : gmap Z (value A)) (item : Z) : result A :=
  match glb (fst <$> map_to_list m) item with
  | None => Raise (KeyError item)
  | Some k =>
      match m !! k with
      | Some (Defined a) => Return a
      | Some undefined_value => Raise (KeyError k)
      | None => Raise (KeyError k)
      end
  end.

End RangeMap.

(** ** [get_msvcr] *)

Definition _msvcr_lookup : gmap Z (RangeMap.value (list string)) :=
  RangeMap.left
    [ (1300, RangeMap.Defined ["msvcr70"]);
      (1310, RangeMap.Defined ["msvcr71"]);
      (1400, RangeMap.Defined ["msvcr80"]);
      (1500, RangeMap.Defined ["msvcr90"]);
      (1600, RangeMap.Defined ["msvcr100"]);
      (1700, RangeMap.Defined ["msvcr110"]);
      (1800, RangeMap.Defined ["msvcr120"]);
      (1900, RangeMap.Defined ["vcruntime140"]);
      (2000, RangeMap.undefined_value) ].

(** The pattern [r'MSC v\.(\d{4})']. *)
Definition msc_prefix : list Re.atom := Re.literal "MSC v.".
Definition msc_group : list Re.atom := [Re.Digit; Re.Digit; Re.Digit; Re.Digit].

(** The first [try] block of [get_msvcr]: [int(match.group(1))]. *)
Definition msc_ver_of (sys_version : string) : result Z :=
  let match_ := Re.search msc_prefix msc_group sys_version in
  result_bind (Re.group1 match_) (fun g => Return (int_of_digits g)).

Definition unknown_version_msg (msc_ver : Z) : string :=
  "Unknown MS Compiler version " +:+ Str.of_Z msc_ver +:+ " ".

Definition get_msvcr (sys_version : string) : result (option (list string)) :=
  match msc_ver_of sys_version with
  | Raise AttributeError => Return None
  | Raise e => Raise e
  | Return msc_ver =>
      match RangeMap.getitem _msvcr_lookup msc_ver with
      | Return libs => Return (Some libs)
      | Raise (KeyError _) => Raise (ValueError (unknown_version_msg msc_ver))
      | Raise e => Raise e
      end
  end.

(** ** Collaborators outside the module *)

(** The arguments of [link], in the order of the signature. *)
Record link_args : Type := LinkArgs {
  target_desc : string;
  objects : list string;
  output_filename : string;
  output_dir : option string;
  libraries : option (list string);
  library_dirs : option (list string);
  runtime_library_dirs : option (list string);
  export_symbols : option (list string);
  debug : Z;
  extra_preargs : option (list string);
  extra_postargs : option (list string);
  build_temp : option string;
  target_lang : option string
}.

(** A call that leaves the module.  [self.warn] only reports its message:
    it is recorded and always returns. *)
Inductive call : Type :=
| Warn (msg : string)                         (* self.warn(msg) *)
| UnixLink (args : link_args)                 (* UnixCCompiler.link(self, ...) *)
| SuperInit (verbose dry_run force : Z)       (* super().__init__(...) *)
| SetExecutables (kw : list (string * string))  (* self.set_executables(...) *)
| CheckOutput (argv : list string)            (* subprocess.check_output(argv) *)
| GetConfigHFilename                          (* sysconfig.get_config_h_filename() *)
| Open (fn : string)                          (* open(fn) *)
| Read (fn : string)                          (* config_h.read() *)
| Close (fn : string).                        (* config_h.close() *)

Definition history : Type := list call.

(** What the collaborators answer, given the calls made before.  The base
    initialiser answers with the attributes it leaves on [self]. *)
Record collaborators : Type := Collaborators {
  unix_link : history -> link_args -> result unit;
  super_init : history -> Z -> Z -> Z -> result (gmap string string);
  set_executables : history -> list (string * string) -> result unit;
  shlex_split : string -> result (list string);
  check_output : history -> list string -> result string;
  get_config_h_filename : history -> result string;
  file_open : history -> string -> result unit;
  file_read : history -> string -> result string;
  file_close : history -> string -> result unit
}.

(** Computations that call out: they read and extend the history. *)
Definition M (A : Type) : Type := history -> result A * history.

Definition ret {A : Type} (a : A) : M A := fun h => (Return a, h).

Definition raise {A : Type} (e : exn) : M A := fun h => (Raise e, h).

Definition bind {A B : Type} (m : M A) (k : A -> M B) : M B :=
  fun h =>
    match m h with
    | (Return a, h') => k a h'
    | (Raise e, h') => (Raise e, h')
    end.

(** Lift a pure computation that may raise. *)
Definition lift {A : Type} (r : result A) : M A := fun h => (r, h).

(** Make the call [c]; [answer] is the collaborator's reply. *)
Definition call_out {A : Type} (c : call) (answer : history -> result A) : M A :=
  fun h => (answer h, h ++ [c]).

(** [try: body  except OSError as exc: handler(exc.strerror)] *)
Definition except_OSError {A : Type} (body : M A) (handler : option string -> M A) : M A :=
  fun h =>
    match body h with
    | (Raise (OSError strerror), h') => handler strerror h'
    | r => r
    end.

(** [try: body  finally: cleanup] *)
Definition finally {A : Type} (body : M A) (cleanup : M unit) : M A :=
  fun h =>
    match body h with
    | (r, h') =>
        match cleanup h' with
        | (Return _, h'') => (r, h'')
        | (Raise e, h'') => (Raise e, h'')
        end
    end.

#[global] Instance M_ret : MRet M := @ret.
#[global] Instance M_bind : MBind M := fun A B k m => bind m k.

(** Truth value of an optional list: [None] and [[]] are false. *)
Definition truthy {A : Type} (o : option (list A)) : bool :=
  match o with
  | Some (_ :: _) => true
  | _ => false
  end.

(** [self.name]: the attribute, or [AttributeError]. *)
Definition getattr (self : gmap string string) (name : string) : result string :=
  match self !! name with
  | Some v => Return v
  | None => Raise AttributeError
  end.

Definition _runtime_library_dirs_msg : string :=
  "Unable to set runtime library search path on Windows, " +:+
  "usually indicated by `runtime_library_dirs` parameter to Extension".

Definition CONFIG_H_OK : string := "ok".
Definition CONFIG_H_NOTOK : string := "not ok".
Definition CONFIG_H_UNCERTAIN : string := "uncertain".

Section Compilers.

Variable env : collaborators.

(** *** [is_cygwincc] *)

Definition is_cygwincc (cc : string) : M bool :=
  argv ← lift (shlex_split env cc);
  let cmd := argv ++ ["-dumpmachine"] in
  out_string ← call_out (CheckOutput cmd) (fun h => check_output env h cmd);
  ret (Str.endswith "cygwin" (Str.strip out_string)).

(** *** [CygwinCCompiler] *)

Definition CygwinCCompiler_link (a : link_args) : M unit :=
  (if truthy (runtime_library_dirs a)
   then call_out (Warn _runtime_library_dirs_msg) (fun _ => Return tt)
   else ret tt) ;;
  let a' :=
    LinkArgs (target_desc a) (objects a) (output_filename a) (output_dir a)
      (libraries a) (library_dirs a) (runtime_library_dirs a)
      None (* export_symbols, we do this in our def-file *)
      (debug a) (extra_preargs a) (extra_postargs a) (build_temp a)
      (target_lang a) in
  call_out (UnixLink a') (fun h => unix_link env h a') ;;
  ret tt.

Definition CygwinCCompiler_runtime_library_dir_option (dir : string)
  : M (list string) :=
  call_out (Warn _runtime_library_dirs_msg) (fun _ => Return tt) ;;
  ret [].

(** *** [Mingw32CCompiler] *)

Definition Mingw32CCompiler_init (verbose dry_run force : Z)
  : M (gmap string string) :=
  self ← call_out (SuperInit verbose dry_run force)
            (fun h => super_init env h verbose dry_run force);
  let shared_option := "-shared" in
  cc ← lift (getattr self "cc");
  cyg ← is_cygwincc cc;
  if cyg : bool then
    raise (CCompilerError "Cygwin gcc cannot be used with --compiler=mingw32")
  else
    cc1 ← lift (getattr self "cc");
    cc2 ← lift (getattr self "cc");
    cxx ← lift (getattr self "cxx");
    cc3 ← lift (getattr self "cc");
    linker_dll ← lift (getattr self "linker_dll");
    let kw :=
      [ ("compiler", cc1 +:+ " -O -Wall");
        ("compiler_so", cc2 +:+ " -mdll -O -Wall");
        ("compiler_cxx", cxx +:+ " -O -Wall");
        ("linker_exe", cc3);
        ("linker_so", linker_dll +:+ " " +:+ shared_option) ] in
    call_out (SetExecutables kw) (fun h => set_executables env h kw) ;;
    ret self.

Definition Mingw32CCompiler_runtime_library_dir_option (dir : string)
  : M (list string) :=
  raise (DistutilsPlatformError _runtime_library_dirs_msg).

(** *** Method resolution *)

Inductive compiler_class : Type :=
| CygwinCCompiler
| Mingw32CCompiler.

Definition compiler_type (cls : compiler_class) : string :=
  match cls with
  | CygwinCCompiler => "cygwin"
  | Mingw32CCompiler => "mingw32"
  end.

(** [Mingw32CCompiler] inherits [link] and overrides
    [runtime_library_dir_option]. *)
Definition link (cls : compiler_class) : link_args -> M unit :=
  match cls with
  | CygwinCCompiler => CygwinCCompiler_link
  | Mingw32CCompiler => CygwinCCompiler_link
  end.

Definition runtime_library_dir_option (cls : compiler_class)
  : string -> M (list string) :=
  match cls with
  | CygwinCCompiler => CygwinCCompiler_runtime_library_dir_option
  | Mingw32CCompiler => Mingw32CCompiler_runtime_library_dir_option
  end.

(** *** [check_config_h] *)

Definition check_config_h (sys_version : string) : M (string * string) :=
  if Str.contains "GCC" sys_version then
    ret (CONFIG_H_OK, "sys.version mentions 'GCC'")
  else if Str.contains "Clang" sys_version then
    ret (CONFIG_H_OK, "sys.version mentions 'Clang'")
  else
    fn ← call_out GetConfigHFilename (get_config_h_filename env);
    except_OSError
      (call_out (Open fn) (fun h => file_open env h fn) ;;
       finally
         (text ← call_out (Read fn) (fun h => file_read env h fn);
          if Str.contains "__GNUC__" text then
            ret (CONFIG_H_OK, "'" +:+ fn +:+ "' mentions '__GNUC__'")
          else
            ret (CONFIG_H_NOTOK, "'" +:+ fn +:+ "' does not mention '__GNUC__'"))
         (call_out (Close fn) (fun h => file_close env h fn)))
      (fun strerror =>
         ret (CONFIG_H_UNCERTAIN,
              "couldn't read '" +:+ fn +:+ "': " +:+ Str.of_opt strerror)).

End Compilers.

(** * Vocabulary of the properties *)

(** The text [m] is matched by the atoms [p], one character per atom. *)
Definition matches (p : list Re.atom) (m : string) : Prop :=
  Forall2 (fun a c => Re.atom_matches a c = true) p (Str.to_list m).

(** The pattern [pre(grp)] occurs somewhere in [s]. *)
Definition occurs (pre grp : list Re.atom) (s : string) : Prop :=
  exists a m g b, s = a +:+ m +:+ g +:+ b /\ matches pre m /\ matches grp g.

(** The version marker [MSC v.] followed by four digits occurs in [s]. *)
Definition has_msc_marker (s : string) : Prop :=
  exists a d b, s = a +:+ "MSC v." +:+ d +:+ b /\
    String.length d = 4%nat /\ Str.all Re.is_digit d = true.

(** The key that opens the range of [item] is the greatest key at or
    below it. *)
Definition opens {A : Type} (m : gmap Z (RangeMap.value A)) (k item : Z) : Prop :=
  is_Some (m !! k) /\ k <= item /\
  forall k', is_Some (m !! k') -> k' <= item -> k' <= k.

(** The keys of [_msvcr_lookup]. *)
Definition msvcr_keys : list Z := [1300; 1310; 1400; 1500; 1600; 1700; 1800; 1900; 2000].

(** The ranges of the table: lower bound, upper bound (excluded) and the
    libraries of the range. *)
Definition defined_ranges : list (Z * Z * list string) :=
  [ (1300, 1310, ["msvcr70"]);
    (1310, 1400, ["msvcr71"]);
    (1400, 1500, ["msvcr80"]);
    (1500, 1600, ["msvcr90"]);
    (1600, 1700, ["msvcr100"]);
    (1700, 1800, ["msvcr110"]);
    (1800, 1900, ["msvcr120"]);
    (1900, 2000, ["vcruntime140"]) ].

(** [a] with [export_symbols] set to [e]. *)
Definition with_export_symbols (a : link_args) (e : option (list string)) : link_args :=
  LinkArgs (target_desc a) (objects a) (output_filename a) (output_dir a)
    (libraries a) (library_dirs a) (runtime_library_dirs a) e
    (debug a) (extra_preargs a) (extra_postargs a) (build_temp a) (target_lang a).

(** The outcome of a call whose value is dropped. *)
Definition discard {A : Type} (r : result A) : result unit :=
  match r with
  | Return _ => Return tt
  | Raise e => Raise e
  end.

(** The calls that [CygwinCCompiler.link] makes before it links. *)
Definition link_warnings (a : link_args) : list call :=
  if truthy (runtime_library_dirs a) then [Warn _runtime_library_dirs_msg] else [].

(** The header cannot be opened, or it opens and cannot be read. *)
Definition unreadable (env : collaborators) (h : history) (fn : string)
    (strerror : option string) (h' : history) : Prop :=
  (file_open env h fn = Raise (OSError strerror) /\ h' = h ++ [Open fn]) \/
  (file_open env h fn = Return tt /\
   file_read env (h ++ [Open fn]) fn = Raise (OSError strerror) /\
   file_close env (h ++ [Open fn; Read fn]) fn = Return tt /\
   h' = h ++ [Open fn; Read fn; Close fn]).

(** The decimal digit [x] as a character. *)
Definition digit_char (x : Z) : ascii := ascii_of_N (Z.to_N (48 + x)).

Definition digits4 (x1 x2 x3 x4 : Z) : string :=
  String (digit_char x1) (String (digit_char x2)
    (String (digit_char x3) (String (digit_char x4) EmptyString))).

(** [str] gives back the four digits of a number between 1000 and 9999. *)
Definition str_digits4_ok (x1 x2 x3 x4 : Z) : bool :=
  String.eqb (Str.of_Z (1000 * x1 + 100 * x2 + 10 * x3 + x4)) (digits4 x1 x2 x3 x4).

(** ** A host to run the functions on

    A Cygwin installation: [gcc -dumpmachine] prints the Cygwin triple, the
    base initialiser leaves the GNU tools on [self], and no [pyconfig.h] is
    installed. *)
Definition newline : string := String (ascii_of_nat 10) EmptyString.

Definition cygwin_host : collaborators :=
  {| unix_link := fun _ _ => Return tt;
     super_init := fun _ _ _ _ =>
       Return (list_to_map [("cc", "gcc"); ("cxx", "g++"); ("linker_dll", "gcc")]);
     set_executables := fun _ _ => Return tt;
     shlex_split := fun s => Return (String.words s);
     check_output := fun _ _ => Return ("x86_64-pc-cygwin" +:+ newline);
     get_config_h_filename := fun _ => Return "/usr/include/python3.9/pyconfig.h";
     file_open := fun _ _ => Raise (OSError (Some "No such file or directory"));
     file_read := fun _ _ => Return EmptyString;
     file_close := fun _ _ => Return tt |}.

(** A MinGW installation: the same, but [gcc] targets [mingw32]. *)
Definition mingw_host : collaborators :=
  {| unix_link := unix_link cygwin_host;
     super_init := super_init cygwin_host;
     set_executables := set_executables cygwin_host;
     shlex_split := shlex_split cygwin_host;
     check_output := fun _ _ => Return ("x86_64-w64-mingw32" +:+ newline);
     get_config_h_filename := get_config_h_filename cygwin_host;
     file_open := file_open cygwin_host;
     file_read := file_read cygwin_host;
     file_close := file_close cygwin_host |}.

Definition cygwin_python : string :=
  "3.9.16 (main, Mar  8 2023, 22:47:22) [GCC 11.3.0]".

Definition msvc_python : string :=
  "3.8.0 (tags/v3.8.0:fa919fd, Oct 14 2019, 19:37:50) [MSC v.1916 64 bit (AMD64)]".

(** A link request for an extension module. *)
Definition sample_link (rpath : option (list string)) (exports : option (list string))
  : link_args :=
  LinkArgs "shared_object" ["build/temp/spam.o"] "build/lib/spam.dll"
    None None None rpath exports 0 None None None None.

(** ** Vocabulary of the further properties *)

(** The keyword arguments that [Mingw32CCompiler.__init__] passes to
    [set_executables]. *)
Definition mingw32_executables (cc cxx linker_dll : string) : list (string * string) :=
  [ ("compiler", cc +:+ " -O -Wall");
    ("compiler_so", cc +:+ " -mdll -O -Wall");
    ("compiler_cxx", cxx +:+ " -O -Wall");
    ("linker_exe", cc);
    ("linker_so", linker_dll +:+ " -shared") ].

Definition starts_with_space (s : string) : bool :=
  match s with
  | EmptyString => false
  | String c _ => Str.is_space c
  end.

(** No white space at either end. *)
Definition trimmed (s : string) : bool :=
  negb (starts_with_space s) && negb (starts_with_space (Str.rev s)).

(** The answers of [check_config_h]. *)
Definition mentions_gnuc (fn : string) : string * string :=
  (CONFIG_H_OK, "'" +:+ fn +:+ "' mentions '__GNUC__'").

Definition does_not_mention_gnuc (fn : string) : string * string :=
  (CONFIG_H_NOTOK, "'" +:+ fn +:+ "' does not mention '__GNUC__'").

(** A MinGW installation whose [pyconfig.h] can be read. *)
Definition mingw_host_with_header (text : string) : collaborators :=
  {| unix_link := unix_link mingw_host;
     super_init := super_init mingw_host;
     set_executables := set_executables mingw_host;
     shlex_split := shlex_split mingw_host;
     check_output := check_output mingw_host;
     get_config_h_filename := get_config_h_filename mingw_host;
     file_open := fun _ _ => Return tt;
     file_read := fun _ _ => Return text;
     file_close := fun _ _ => Return tt |}.

(** A host whose compiler prints nothing. *)
Definition silent_host : collaborators :=
  {| unix_link := unix_link mingw_host;
     super_init := super_init mingw_host;
     set_executables := set_executables mingw_host;
     shlex_split := shlex_split mingw_host;
     check_output := fun _ _ => Return EmptyString;
     get_config_h_filename := get_config_h_filename mingw_host;
     file_open := file_open mingw_host;
     file_read := file_read mingw_host;
     file_close := file_close mingw_host |}.

(** A host without a compiler, on which commands with an open quotation
    cannot be split. *)
Definition bare_host : collaborators :=
  {| unix_link := unix_link mingw_host;
     super_init := super_init mingw_host;
     set_executables := set_executables mingw_host;
     shlex_split := fun s =>
       if Str.contains "'" s then Raise (ValueError "No closing quotation")
       else Return (String.words s);
     check_output := fun _ _ => Raise (OtherError "FileNotFoundError");
     get_config_h_filename := get_config_h_filename mingw_host;
     file_open := file_open mingw_host;
     file_read := file_read mingw_host;
     file_close := file_close mingw_host |}.

(** ** The class attribute [executables]

    The module ends with
    [CygwinCCompiler.executables["preprocessor"] = ["/usr/bin/cpp"]].
    Neither class body of the module binds [executables], so the attribute
    is found along the bases, and the dictionary it names is the one of the
    base class.  Dictionaries live in a heap and are named by their
    identity. *)
Inductive klass : Type :=
| UnixCCompiler
| Derived (cls : compiler_class).

(** The method resolution order, as the [class] statements give it. *)
Definition mro (k : klass) : list klass :=
  match k with
  | UnixCCompiler => [UnixCCompiler]
  | Derived CygwinCCompiler => [Derived CygwinCCompiler; UnixCCompiler]
  | Derived Mingw32CCompiler =>
      [Derived Mingw32CCompiler; Derived CygwinCCompiler; UnixCCompiler]
  end.

Record class_store : Type := ClassStore {
  (* the object that the class's own namespace binds to [executables] *)
  own_executables : klass -> option nat;
  (* the dictionaries, by identity; a value is a command line or [None] *)
  dicts : gmap nat (gmap string (option (list string)))
}.

(** The classes once the two [class] statements have run: the base class
    comes with its own [executables] (or none), the two classes of the
    module bind none. *)
Definition module_classes (unix_executables : option nat)
    (heap : gmap nat (gmap string (option (list string)))) : class_store :=
  ClassStore (fun k => match k with
                       | UnixCCompiler => unix_executables
                       | Derived _ => None
                       end) heap.

(** [k.executables]: the first class of the resolution order that binds it. *)
Definition class_executables (st : class_store) (k : klass) : result nat :=
  match omap (own_executables st) (mro k) with
  | r :: _ => Return r
  | [] => Raise AttributeError
  end.

(** [CygwinCCompiler.executables["preprocessor"] = ["/usr/bin/cpp"]] *)
Definition set_preprocessor (st : class_store) : result class_store :=
  result_bind (class_executables st (Derived CygwinCCompiler)) (fun r =>
    Return (ClassStore (own_executables st)
              (alter (insert "preprocessor" (Some ["/usr/bin/cpp"])) r (dicts st)))).

(** The executables of a Unix compiler class before the module is loaded. *)
Definition unix_executables_dict : gmap string (option (list string)) :=
  list_to_map
    [ ("preprocessor", None);
      ("compiler", Some ["cc"]);
      ("linker_so", Some ["cc"; "-shared"]) ].

(** The bytes that [bytes.strip()] takes for white space: tab, line feed,
    vertical tab, form feed, carriage return and space. *)
Definition ascii_whitespace : list ascii := map ascii_of_N [9; 10; 11; 12; 13; 32]%N.

(** Every byte of [s] is white space. *)
Definition whitespace_only (s : string) : Prop :=
  forall c, In c (list_ascii_of_string s) -> In c ascii_whitespace.

(** [s] neither starts nor ends with white space. *)
Definition no_whitespace_at_ends (s : string) : Prop :=
  (forall c t, s = String c t -> ~ In c ascii_whitespace) /\
  (forall t c, s = t +:+ String c EmptyString -> ~ In c ascii_whitespace).

(** ** Tactics *)

(** Unfold the operations of [M]. *)
Ltac run :=
  unfold mbind, M_bind, mret, M_ret, bind, ret, raise, lift, call_out,
    except_OSError, finally; simpl.

(** Close a goal about a key of [_msvcr_lookup] by trying each key. *)
Ltac key_cases H :=
  unfold msvcr_keys in H;
  repeat (apply elem_of_cons in H as [->|H]; [lia |]);
  by apply elem_of_nil in H.

(** * Properties *)

(** ** Strings *)

#[local] Arguments String.append !_ _ / : simpl nomatch.

Lemma app_empty_r (s : string) : s +:+ EmptyString = s.
Proof. induction s as [|c s IH]; simpl; [done | by rewrite IH]. Qed.

Lemma app_assoc_s (a b c : string) : (a +:+ b) +:+ c = a +:+ b +:+ c.
Proof. induction a as [|x a IH]; simpl; [done | by rewrite IH]. Qed.

Lemma app_length_s (a b : string) :
  String.length (a +:+ b) = (String.length a + String.length b)%nat.
Proof. induction a as [|x a IH]; simpl; [done | by rewrite IH]. Qed.

Lemma app_inv_head_s (a b c : string) : a +:+ b = a +:+ c -> b = c.
Proof. induction a as [|x a IH]; simpl; [done | intros [= H]; auto]. Qed.

Lemma startswith_iff (p s : string) :
  Str.startswith p s = true <-> exists rest, s = p +:+ rest.
Proof.
  revert s; induction p as [|a p IH]; intros s; simpl.
  - split; [intros _; by exists s | done].
  - destruct s as [|b s].
    + split; [done | intros [rest [=]]].
    + destruct (Ascii.eqb_spec a b) as [->|Hne].
      * rewrite IH. split; intros [rest H]; exists rest; congruence.
      * split; [done | intros [rest [= ? _]]; done].
Qed.

Lemma contains_iff (sub s : string) :
  Str.contains sub s = true <-> exists pre post, s = pre +:+ sub +:+ post.
Proof.
  induction s as [|c s IH]; simpl.
  - rewrite orb_false_r, startswith_iff. split.
    + intros [rest H]. by exists EmptyString, rest.
    + intros (pre & post & H). destruct pre; [by exists post | done].
  - rewrite orb_true_iff, startswith_iff, IH. split.
    + intros [[rest H] | (pre & post & H)].
      * by exists EmptyString, rest.
      * exists (String c pre), post. simpl. by rewrite H.
    + intros (pre & post & H). destruct pre as [|x pre]; simpl in H.
      * left. by exists post.
      * right. injection H as _ H. by exists pre, post.
Qed.

Lemma rev_onto_app (s acc : string) : Str.rev_onto s acc = Str.rev s +:+ acc.
Proof.
  unfold Str.rev. revert acc; induction s as [|c s IH]; intros acc; simpl.
  - done.
  - rewrite IH, (IH (String c EmptyString)), app_assoc_s. done.
Qed.

Lemma rev_cons (c : ascii) (s : string) :
  Str.rev (String c s) = Str.rev s +:+ String c EmptyString.
Proof. unfold Str.rev at 1. simpl. apply rev_onto_app. Qed.

Lemma rev_app (a b : string) : Str.rev (a +:+ b) = Str.rev b +:+ Str.rev a.
Proof.
  induction a as [|c a IH]; simpl.
  - symmetry. apply app_empty_r.
  - by rewrite !rev_cons, IH, app_assoc_s.
Qed.

Lemma rev_involutive (s : string) : Str.rev (Str.rev s) = s.
Proof.
  induction s as [|c s IH]; [done |].
  by rewrite rev_cons, rev_app, IH.
Qed.

Lemma endswith_iff (p s : string) :
  Str.endswith p s = true <-> exists pre, s = pre +:+ p.
Proof.
  unfold Str.endswith. rewrite startswith_iff. split.
  - intros [rest H]. exists (Str.rev rest).
    rewrite <- (rev_involutive s), H, rev_app. by rewrite rev_involutive.
  - intros [pre ->]. exists (Str.rev pre). apply rev_app.
Qed.

Lemma all_app (p : ascii -> bool) (a b : string) :
  Str.all p (a +:+ b) = Str.all p a && Str.all p b.
Proof. induction a as [|c a IH]; simpl; [done | by rewrite IH, andb_assoc]. Qed.

Lemma all_rev (p : ascii -> bool) (s : string) : Str.all p (Str.rev s) = Str.all p s.
Proof.
  induction s as [|c s IH]; [done |].
  rewrite rev_cons, all_app, IH. simpl. by rewrite andb_true_r, andb_comm.
Qed.

(** What is left of [lstrip]: a run of white space was removed, and the
    rest does not start with white space. *)
Lemma lstrip_spec (s : string) :
  exists ws, s = ws +:+ Str.lstrip s /\ Str.all Str.is_space ws = true /\
    match Str.lstrip s with
    | EmptyString => True
    | String c _ => Str.is_space c = false
    end.
Proof.
  induction s as [|c s (ws & Hs & Hws & Hhd)]; simpl.
  - by exists EmptyString.
  - destruct (Str.is_space c) eqn:Hc.
    + exists (String c ws). simpl. rewrite Hc, Hws. by rewrite <- Hs.
    + by exists EmptyString.
Qed.

(** [strip] removes white space at both ends and nothing else. *)
Lemma strip_spec (s : string) :
  exists l r, s = l +:+ Str.strip s +:+ r /\
    Str.all Str.is_space l = true /\ Str.all Str.is_space r = true.
Proof.
  unfold Str.strip, Str.rstrip.
  destruct (lstrip_spec s) as (l & Hs & Hl & _).
  destruct (lstrip_spec (Str.rev (Str.lstrip s))) as (r & Hr & Hws & _).
  exists l, (Str.rev r). split; [| split; [done | by rewrite all_rev]].
  rewrite <- rev_app, <- Hr, rev_involutive. done.
Qed.

(** ** Regular expressions *)

Lemma match_atoms_Some (p : list Re.atom) (s m rest : string) :
  Re.match_atoms p s = Some (m, rest) <-> s = m +:+ rest /\ matches p m.
Proof.
  unfold matches. revert s m rest.
  induction p as [|a p IH]; intros s m rest; simpl.
  - split.
    + intros [= <- <-]. split; [done | constructor].
    + intros [-> H]. destruct m; [done | inversion H].
  - destruct s as [|c s].
    + split; [done |]. intros [H1 H2]. destruct m; inversion H2. done.
    + destruct (Re.atom_matches a c) eqn:Hac.
      * destruct (Re.match_atoms p s) as [[m' rest']|] eqn:Hm.
        -- apply IH in Hm as [-> Hm]. split.
           ++ intros [= <- <-]. split; [done | by constructor].
           ++ intros [H1 H2]. destruct m as [|c' m]; inversion H2; subst.
              simpl in H1. injection H1 as <- H1.
              assert (Re.match_atoms p (m +:+ rest) = Some (m, rest)) as Hm2
                by (apply IH; done).
              rewrite <- H1 in Hm2.
              assert (Re.match_atoms p (m' +:+ rest') = Some (m', rest')) as Hm1
                by (apply IH; done).
              congruence.
        -- split; [done |]. intros [H1 H2].
           destruct m as [|c' m]; inversion H2; subst.
           simpl in H1. injection H1 as <- ->.
           assert (Re.match_atoms p (m +:+ rest) = Some (m, rest)) as Hm2
             by (apply IH; done).
           congruence.
      * split; [done |]. intros [H1 H2].
        destruct m as [|c' m]; inversion H2; subst.
        simpl in H1. injection H1 as <- _. congruence.
Qed.

Lemma match_here_Some (pre grp : list Re.atom) (s g : string) :
  Re.match_here pre grp s = Some g <->
  exists m b, s = m +:+ g +:+ b /\ matches pre m /\ matches grp g.
Proof.
  unfold Re.match_here. split.
  - destruct (Re.match_atoms pre s) as [[m rest]|] eqn:H1; [| done].
    destruct (Re.match_atoms grp rest) as [[g' b]|] eqn:H2; [| done].
    intros [= ->]. apply match_atoms_Some in H1 as [-> Hm].
    apply match_atoms_Some in H2 as [-> Hg]. by exists m, b.
  - intros (m & b & -> & Hm & Hg).
    assert (Re.match_atoms pre (m +:+ g +:+ b) = Some (m, g +:+ b)) as ->
      by (by apply match_atoms_Some).
    assert (Re.match_atoms grp (g +:+ b) = Some (g, b)) as ->
      by (by apply match_atoms_Some).
    done.
Qed.

Lemma search_Some (pre grp : list Re.atom) (s g : string) :
  Re.search pre grp s = Some g ->
  exists a m b, s = a +:+ m +:+ g +:+ b /\ matches pre m /\ matches grp g.
Proof.
  induction s as [|c s IH]; simpl.
  - destruct (Re.match_here pre grp "") eqn:H; [| done].
    intros [= ->]. apply match_here_Some in H as (m & b & H). by exists "", m, b.
  - destruct (Re.match_here pre grp (String c s)) eqn:H.
    + intros [= ->]. apply match_here_Some in H as (m & b & H). by exists "", m, b.
    + intros (a & m & b & -> & Hm) % IH. by exists (String c a), m, b.
Qed.

Lemma search_here (pre grp : list Re.atom) (s g : string) :
  Re.match_here pre grp s = Some g -> Re.search pre grp s = Some g.
Proof. intros H. destruct s; simpl; by rewrite H. Qed.

Lemma search_cons (pre grp : list Re.atom) (c : ascii) (s : string) :
  Re.search pre grp (String c s) =
  match Re.match_here pre grp (String c s) with
  | Some g => Some g
  | None => Re.search pre grp s
  end.
Proof. reflexivity. Qed.

Lemma search_None_iff (pre grp : list Re.atom) (s : string) :
  Re.search pre grp s = None <-> ~ occurs pre grp s.
Proof.
  split.
  - intros Hnone (a & m & g & b & -> & Hm & Hg).
    induction a as [|c a IH]; simpl in Hnone.
    + assert (Re.match_here pre grp (m +:+ g +:+ b) = Some g) as H
        by (apply match_here_Some; by exists m, b).
      apply search_here in H. congruence.
    + destruct (Re.match_here pre grp (String c (a +:+ m +:+ g +:+ b))); [done |].
      by apply IH.
  - intros Hno. destruct (Re.search pre grp s) as [g|] eqn:H; [| done].
    exfalso. apply Hno. apply search_Some in H as (a & m & b & H).
    by exists a, m, g, b.
Qed.

Lemma matches_literal (l m : string) : matches (Re.literal l) m <-> m = l.
Proof.
  unfold matches, Re.literal. revert m.
  induction l as [|c l IH]; intros m; simpl.
  - split; [| by intros ->; constructor].
    intros H. destruct m; [done | inversion H].
  - split.
    + intros H. destruct m as [|c' m]; inversion H; subst.
      simpl in *. f_equal; [symmetry; by apply Ascii.eqb_eq | by apply IH].
    + intros ->. constructor; [apply Ascii.eqb_refl | by apply IH].
Qed.

Lemma matches_digits (n : nat) (g : string) :
  matches (replicate n Re.Digit) g <->
  String.length g = n /\ Str.all Re.is_digit g = true.
Proof.
  unfold matches. revert g. induction n as [|n IH]; intros g; simpl.
  - split.
    + intros H. destruct g; [done | inversion H].
    + intros [H _]. destruct g; [constructor | done].
  - split.
    + intros H. destruct g as [|c g]; inversion H as [|? ? ? ? Hc Hg]; subst.
      apply IH in Hg as [Hlen Hall]. simpl in *. by rewrite Hlen, Hc, Hall.
    + intros [Hlen Hall]. destruct g as [|c g]; [done |].
      simpl in *. apply andb_true_iff in Hall as [Hc Hall].
      constructor; [done |]. apply IH. split; [congruence | done].
Qed.

Lemma matches_msc_group (g : string) :
  matches msc_group g <->
  String.length g = 4%nat /\ Str.all Re.is_digit g = true.
Proof. apply (matches_digits 4). Qed.

Lemma occurs_msc (s : string) : occurs msc_prefix msc_group s <-> has_msc_marker s.
Proof.
  unfold occurs, has_msc_marker, msc_prefix. split.
  - intros (a & m & g & b & -> & Hm % matches_literal & Hg % matches_msc_group).
    subst m. by exists a, g, b.
  - intros (a & d & b & -> & Hd). exists a, "MSC v.", d, b.
    split; [done |]. split; [by apply matches_literal | by apply matches_msc_group].
Qed.

(** ** The range map *)

Lemma glb_None (keys : list Z) (item : Z) :
  RangeMap.glb keys item = None <-> forall k, k ∈ keys -> item < k.
Proof.
  induction keys as [|y keys IH]; simpl.
  - split; [| done]. intros _ k Hk. by apply elem_of_nil in Hk.
  - destruct (Z.leb_spec y item) as [Hy|Hy].
    + split.
      * destruct (RangeMap.glb keys item); done.
      * intros Hall. specialize (Hall y (list_elem_of_here _ _)). lia.
    + rewrite IH. split.
      * intros Hall k [->|Hk] % elem_of_cons; [done | by apply Hall].
      * intros Hall k Hk. by apply Hall, list_elem_of_further.
Qed.

Lemma glb_Some (keys : list Z) (item k : Z) :
  RangeMap.glb keys item = Some k <->
  k ∈ keys /\ k <= item /\ forall k', k' ∈ keys -> k' <= item -> k' <= k.
Proof.
  revert k. induction keys as [|x keys IH]; intros k; simpl.
  - split; [done |]. intros [H _]. by apply elem_of_nil in H.
  - destruct (Z.leb_spec x item) as [Hx|Hx].
    + destruct (RangeMap.glb keys item) as [b|] eqn:Hb.
      * destruct (proj1 (IH b) eq_refl) as (Hin & Hle & Hmax). split.
        -- intros [= <-]. split; [| split; [lia |]].
           ++ destruct (Z.max_spec b x) as [[_ ->]|[_ ->]];
                [apply list_elem_of_here | by apply list_elem_of_further].
           ++ intros k' [->|Hk'] % elem_of_cons ?; [lia |].
              specialize (Hmax k' Hk'). lia.
        -- intros (Hk & Hkle & Hkmax). f_equal.
           assert (b <= k) by (apply Hkmax; [by apply list_elem_of_further | done]).
           assert (x <= k) by (apply Hkmax; [apply list_elem_of_here | done]).
           apply elem_of_cons in Hk as [->|Hk]; [lia |].
           specialize (Hmax k Hk). lia.
      * pose proof (proj1 (glb_None keys item) Hb) as Hnone. split.
        -- intros [= <-]. split; [apply list_elem_of_here | split; [done |]].
           intros k' [->|Hk'] % elem_of_cons ?; [lia |].
           specialize (Hnone k' Hk'). lia.
        -- intros (Hk & Hkle & Hkmax). f_equal.
           apply elem_of_cons in Hk as [->|Hk]; [done |].
           specialize (Hnone k Hk). lia.
    + rewrite IH. split.
      * intros (Hin & Hle & Hmax).
        split; [by apply list_elem_of_further | split; [done |]].
        intros k' [->|Hk'] % elem_of_cons ?; [lia | by apply Hmax].
      * intros (Hk & Hkle & Hkmax). split; [| split; [done |]].
        -- apply elem_of_cons in Hk as [->|Hk]; [lia | done].
        -- intros k' Hk' ?. apply Hkmax; [by apply list_elem_of_further | done].
Qed.

Lemma elem_of_keys {A : Type} (m : gmap Z (RangeMap.value A)) (k : Z) :
  k ∈ (fst <$> map_to_list m) <-> is_Some (m !! k).
Proof.
  rewrite list_elem_of_fmap. split.
  - intros ([k' v] & -> & H % elem_of_map_to_list). by exists v.
  - intros [v H]. exists (k, v). split; [done | by apply elem_of_map_to_list].
Qed.

Lemma glb_opens {A : Type} (m : gmap Z (RangeMap.value A)) (k item : Z) :
  opens m k item -> RangeMap.glb (fst <$> map_to_list m) item = Some k.
Proof.
  intros (Hk & Hle & Hmax). apply glb_Some. split; [by apply elem_of_keys |].
  split; [done |]. intros k' Hk' % elem_of_keys. by apply Hmax.
Qed.

Lemma getitem_defined {A : Type} (m : gmap Z (RangeMap.value A)) (k item : Z) (a : A) :
  m !! k = Some (RangeMap.Defined a) -> opens m k item ->
  RangeMap.getitem m item = Return a.
Proof.
  intros Hk Ho. unfold RangeMap.getitem. by rewrite (glb_opens m k item Ho), Hk.
Qed.

Lemma getitem_undefined {A : Type} (m : gmap Z (RangeMap.value A)) (k item : Z) :
  m !! k = Some RangeMap.undefined_value -> opens m k item ->
  RangeMap.getitem m item = Raise (KeyError k).
Proof.
  intros Hk Ho. unfold RangeMap.getitem. by rewrite (glb_opens m k item Ho), Hk.
Qed.

Lemma getitem_below {A : Type} (m : gmap Z (RangeMap.value A)) (item : Z) :
  (forall k, is_Some (m !! k) -> item < k) ->
  RangeMap.getitem m item = Raise (KeyError item).
Proof.
  intros Hall. unfold RangeMap.getitem.
  assert (RangeMap.glb (fst <$> map_to_list m) item = None) as ->; [| done].
  apply glb_None. intros k Hk % elem_of_keys. by apply Hall.
Qed.

(** ** Parsing the compiler version *)

Lemma has_msc_marker_cons (c : ascii) (a : string) :
  has_msc_marker a -> has_msc_marker (String c a).
Proof. intros (x & d & y & -> & H). by exists (String c x), d, y. Qed.

(** A marker that follows [a] cannot be overlapped by an earlier match:
    a match that starts inside [a] lies inside [a]. *)
Lemma no_overlap (c : ascii) (a d b g b' : string) :
  String c a +:+ "MSC v." +:+ d +:+ b = "MSC v." +:+ g +:+ b' ->
  String.length g = 4%nat -> Str.all Re.is_digit g = true ->
  has_msc_marker (String c a).
Proof.
  intros Heq Hlen Hdig.
  do 4 (destruct g as [|? g]; [done |]). destruct g; [| done].
  simpl in Hdig. rewrite !andb_true_iff in Hdig.
  destruct Hdig as (? & ? & ? & ? & _).
  do 9 (destruct a as [|? a];
        [simplify_eq/=;
         try match goal with
             | H : Re.is_digit "M" = true |- _ => by vm_compute in H
             end |]).
  simplify_eq/=.
  exists "", (String a0 (String a1 (String a2 (String a3 "")))), a.
  split; [done |]. split; [done |].
  cbn [Str.all]. by rewrite H, H0, H1, H2.
Qed.

Lemma search_first_marker (a d b : string) :
  ~ has_msc_marker a ->
  String.length d = 4%nat -> Str.all Re.is_digit d = true ->
  Re.search msc_prefix msc_group (a +:+ "MSC v." +:+ d +:+ b) = Some d.
Proof.
  intros Hno Hlen Hdig. induction a as [|c a IH].
  - apply search_here, match_here_Some. exists "MSC v.", b.
    split; [done |]. split; [by apply matches_literal | by apply matches_msc_group].
  - change (String c a +:+ "MSC v." +:+ d +:+ b)
      with (String c (a +:+ "MSC v." +:+ d +:+ b)).
    rewrite search_cons.
    destruct (Re.match_here msc_prefix msc_group
                (String c (a +:+ "MSC v." +:+ d +:+ b))) as [g|] eqn:Hg.
    + exfalso. apply Hno.
      apply match_here_Some in Hg
        as (m & b' & Heq & -> % matches_literal & [Hl Hd] % matches_msc_group).
      by apply (no_overlap c a d b g b').
    + apply IH. intros H. by apply Hno, has_msc_marker_cons.
Qed.

Lemma msc_ver_of_marker (a d b : string) :
  ~ has_msc_marker a ->
  String.length d = 4%nat -> Str.all Re.is_digit d = true ->
  msc_ver_of (a +:+ "MSC v." +:+ d +:+ b) = Return (int_of_digits d).
Proof.
  intros Hno Hlen Hdig. unfold msc_ver_of.
  by rewrite (search_first_marker a d b Hno Hlen Hdig).
Qed.

Lemma msc_ver_of_absent (s : string) :
  ~ has_msc_marker s -> msc_ver_of s = Raise AttributeError.
Proof.
  intros Hno. unfold msc_ver_of.
  assert (Re.search msc_prefix msc_group s = None) as ->; [| done].
  apply search_None_iff. by rewrite occurs_msc.
Qed.

Lemma msc_ver_of_present (s : string) :
  has_msc_marker s -> exists v, msc_ver_of s = Return v.
Proof.
  intros H. unfold msc_ver_of.
  destruct (Re.search msc_prefix msc_group s) as [g|] eqn:Hs.
  - by exists (int_of_digits g).
  - apply search_None_iff in Hs. by rewrite occurs_msc in Hs.
Qed.

Lemma digit_value (c : ascii) :
  Re.is_digit c = true -> 0 <= Z.of_N (N_of_ascii c) - 48 <= 9.
Proof.
  unfold Re.is_digit. intros [H1 H2] % andb_true_iff.
  apply N.leb_le in H1, H2. lia.
Qed.

Lemma int_of_digits_bounds (d : string) :
  String.length d = 4%nat -> Str.all Re.is_digit d = true ->
  0 <= int_of_digits d <= 9999.
Proof.
  intros Hlen Hdig.
  do 4 (destruct d as [|? d]; [done |]). destruct d; [| done].
  simpl in Hdig. rewrite !andb_true_iff in Hdig.
  destruct Hdig as (?%digit_value & ?%digit_value & ?%digit_value & ?%digit_value & _).
  unfold int_of_digits. simpl. lia.
Qed.

Lemma digit_char_of (c : ascii) :
  digit_char (Z.of_N (N_of_ascii c) - 48) = c.
Proof.
  unfold digit_char.
  replace (Z.to_N (48 + (Z.of_N (N_of_ascii c) - 48))) with (N_of_ascii c) by lia.
  apply ascii_N_embedding.
Qed.

Lemma str_digits4_table :
  forallb (fun x1 =>
    forallb (fun x2 =>
      forallb (fun x3 =>
        forallb (fun x4 => str_digits4_ok x1 x2 x3 x4) (seqZ 0 10))
        (seqZ 0 10)) (seqZ 0 10)) (seqZ 1 9) = true.
Proof. vm_compute. reflexivity. Qed.

Lemma str_digits4 (x1 x2 x3 x4 : Z) :
  1 <= x1 <= 9 -> 0 <= x2 <= 9 -> 0 <= x3 <= 9 -> 0 <= x4 <= 9 ->
  Str.of_Z (1000 * x1 + 100 * x2 + 10 * x3 + x4) = digits4 x1 x2 x3 x4.
Proof.
  intros H1 H2 H3 H4. pose proof str_digits4_table as T.
  rewrite forallb_forall in T.
  specialize (T x1 ltac:(apply list_elem_of_In, elem_of_seqZ; lia)).
  rewrite forallb_forall in T.
  specialize (T x2 ltac:(apply list_elem_of_In, elem_of_seqZ; lia)).
  rewrite forallb_forall in T.
  specialize (T x3 ltac:(apply list_elem_of_In, elem_of_seqZ; lia)).
  rewrite forallb_forall in T.
  specialize (T x4 ltac:(apply list_elem_of_In, elem_of_seqZ; lia)).
  by apply String.eqb_eq in T.
Qed.

(** A version of four digits without a leading zero prints as those digits. *)
Lemma of_Z_int_of_digits (d : string) :
  String.length d = 4%nat -> Str.all Re.is_digit d = true ->
  1000 <= int_of_digits d -> Str.of_Z (int_of_digits d) = d.
Proof.
  intros Hlen Hdig.
  do 4 (destruct d as [|? d]; [done |]). destruct d; [| done].
  simpl in Hdig. rewrite !andb_true_iff in Hdig.
  destruct Hdig as (H0 % digit_value & H1 % digit_value & H2 % digit_value
                    & H3 % digit_value & _).
  unfold int_of_digits. simpl. intros Hv.
  transitivity (digits4 (Z.of_N (N_of_ascii a) - 48) (Z.of_N (N_of_ascii a0) - 48)
                  (Z.of_N (N_of_ascii a1) - 48) (Z.of_N (N_of_ascii a2) - 48)).
  - rewrite <- str_digits4 by lia. f_equal. lia.
  - unfold digits4. by rewrite !digit_char_of.
Qed.

(** ** The table of runtime libraries *)

Lemma msvcr_lookup_keys (k : Z) : is_Some (_msvcr_lookup !! k) -> k ∈ msvcr_keys.
Proof.
  intros [v H]. apply elem_of_list_to_map_2 in H.
  apply (list_elem_of_fmap_2 fst) in H. exact H.
Qed.

Lemma lookup_in_range (lo hi v : Z) (libs : list string) :
  (lo, hi, libs) ∈ defined_ranges -> lo <= v < hi ->
  RangeMap.getitem _msvcr_lookup v = Return libs.
Proof.
  intros Hin Hv. unfold defined_ranges in Hin.
  repeat (apply elem_of_cons in Hin as [[= -> -> ->]|Hin];
          [match type of Hv with ?l <= _ < _ => apply (getitem_defined _ l) end;
           [reflexivity
           |split; [by eexists | split; [lia |]];
            intros k' Hk' % msvcr_lookup_keys ?; key_cases Hk'] |]).
  by apply elem_of_nil in Hin.
Qed.

Lemma lookup_above_top (v : Z) :
  2000 <= v -> RangeMap.getitem _msvcr_lookup v = Raise (KeyError 2000).
Proof.
  intros Hv. apply (getitem_undefined _ 2000); [reflexivity |].
  split; [by eexists | split; [lia |]].
  intros k' Hk' % msvcr_lookup_keys ?. key_cases Hk'.
Qed.

Lemma lookup_below_bottom (v : Z) :
  v < 1300 -> RangeMap.getitem _msvcr_lookup v = Raise (KeyError v).
Proof.
  intros Hv. apply getitem_below.
  intros k Hk % msvcr_lookup_keys. key_cases Hk.
Qed.

Lemma unknown_version_msg_contains (v : Z) :
  Str.contains (Str.of_Z v) (unknown_version_msg v) = true.
Proof. apply contains_iff. by exists "Unknown MS Compiler version ", " ". Qed.

Lemma no_marker_by_search (s : string) :
  Re.search msc_prefix msc_group s = None -> ~ has_msc_marker s.
Proof. intros H. rewrite <- occurs_msc. by apply search_None_iff. Qed.

(** ** [get_msvcr] *)

Lemma digit_char_value (x : Z) :
  0 <= x <= 9 -> Z.of_N (N_of_ascii (digit_char x)) - 48 = x.
Proof.
  intros Hx. unfold digit_char. rewrite N_ascii_embedding by lia. lia.
Qed.

Lemma digit_char_is_digit (x : Z) :
  0 <= x <= 9 -> Re.is_digit (digit_char x) = true.
Proof.
  intros Hx. unfold Re.is_digit, digit_char. rewrite N_ascii_embedding by lia.
  apply andb_true_iff. split; apply N.leb_le; lia.
Qed.

Lemma digits4_all_digits (x1 x2 x3 x4 : Z) :
  0 <= x1 <= 9 -> 0 <= x2 <= 9 -> 0 <= x3 <= 9 -> 0 <= x4 <= 9 ->
  Str.all Re.is_digit (digits4 x1 x2 x3 x4) = true.
Proof.
  intros H1 H2 H3 H4. unfold digits4. cbn [Str.all].
  by rewrite !digit_char_is_digit.
Qed.

Lemma int_of_digits4 (x1 x2 x3 x4 : Z) :
  0 <= x1 <= 9 -> 0 <= x2 <= 9 -> 0 <= x3 <= 9 -> 0 <= x4 <= 9 ->
  int_of_digits (digits4 x1 x2 x3 x4) = 1000 * x1 + 100 * x2 + 10 * x3 + x4.
Proof.
  intros H1 H2 H3 H4. unfold int_of_digits, digits4. cbn [Str.to_list fold_left].
  rewrite !digit_char_value by done. lia.
Qed.

(** C1: when the first marker [MSC v.] in [sys.version] is followed by the
    four decimal digits [x1 x2 x3 x4], and the number they write,
    [1000 x1 + 100 x2 + 10 x3 + x4], lies in one of the ranges of the table
    (lower bound included, upper bound excluded), [get_msvcr] returns the
    list of that range. *)
Theorem get_msvcr_in_range (a b : string) (x1 x2 x3 x4 lo hi : Z)
    (libs : list string) :
  ~ has_msc_marker a ->
  0 <= x1 <= 9 -> 0 <= x2 <= 9 -> 0 <= x3 <= 9 -> 0 <= x4 <= 9 ->
  (lo, hi, libs) ∈ defined_ranges ->
  lo <= 1000 * x1 + 100 * x2 + 10 * x3 + x4 < hi ->
  get_msvcr (a +:+ "MSC v." +:+ digits4 x1 x2 x3 x4 +:+ b) = Return (Some libs).
Proof.
  intros Hno H1 H2 H3 H4 Hin Hv. unfold get_msvcr.
  rewrite (msc_ver_of_marker a (digits4 x1 x2 x3 x4) b Hno eq_refl
             (digits4_all_digits x1 x2 x3 x4 H1 H2 H3 H4)).
  rewrite <- (int_of_digits4 x1 x2 x3 x4 H1 H2 H3 H4) in Hv.
  by rewrite (lookup_in_range lo hi _ libs Hin Hv).
Qed.

Lemma get_msvcr_in_range_witness :
  get_msvcr "3.8.0 (tags/v3.8.0:fa919fd, Oct 14 2019, 19:37:50) [MSC v.1916 64 bit (AMD64)]"
    = Return (Some ["vcruntime140"]) /\
  get_msvcr "2.4.4 (#71, Oct 18 2006, 08:34:43) [MSC v.1310 32 bit (Intel)]"
    = Return (Some ["msvcr71"]) /\
  get_msvcr "MSC v.1300" = Return (Some ["msvcr70"]) /\
  get_msvcr "MSC v.1309" = Return (Some ["msvcr70"]) /\
  get_msvcr "MSC v.1999" = Return (Some ["vcruntime140"]).
Proof.
  split; [| split; [| split; [| split]]].
  - apply (get_msvcr_in_range
             "3.8.0 (tags/v3.8.0:fa919fd, Oct 14 2019, 19:37:50) ["
             " 64 bit (AMD64)]" 1 9 1 6 1900 2000); try lia.
    + apply no_marker_by_search. vm_compute. reflexivity.
    + unfold defined_ranges. do 7 apply list_elem_of_further. apply list_elem_of_here.
  - apply (get_msvcr_in_range "2.4.4 (#71, Oct 18 2006, 08:34:43) ["
             " 32 bit (Intel)]" 1 3 1 0 1310 1400); try lia.
    + apply no_marker_by_search. vm_compute. reflexivity.
    + unfold defined_ranges. apply list_elem_of_further. apply list_elem_of_here.
  - apply (get_msvcr_in_range "" "" 1 3 0 0 1300 1310); try lia.
    + apply no_marker_by_search. vm_compute. reflexivity.
    + unfold defined_ranges. apply list_elem_of_here.
  - apply (get_msvcr_in_range "" "" 1 3 0 9 1300 1310); try lia.
    + apply no_marker_by_search. vm_compute. reflexivity.
    + unfold defined_ranges. apply list_elem_of_here.
  - apply (get_msvcr_in_range "" "" 1 9 9 9 1900 2000); try lia.
    + apply no_marker_by_search. vm_compute. reflexivity.
    + unfold defined_ranges. do 7 apply list_elem_of_further. apply list_elem_of_here.
Defined.

(** C2: when the four digits after the marker spell a number at or above
    2000, [get_msvcr] raises [ValueError]; its message is
    "Unknown MS Compiler version <digits> " and so contains the number. *)
Theorem get_msvcr_above_top (a d b : string) :
  ~ has_msc_marker a ->
  String.length d = 4%nat -> Str.all Re.is_digit d = true ->
  2000 <= int_of_digits d ->
  get_msvcr (a +:+ "MSC v." +:+ d +:+ b)
    = Raise (ValueError ("Unknown MS Compiler version " +:+ d +:+ " ")) /\
  Str.contains d ("Unknown MS Compiler version " +:+ d +:+ " ") = true.
Proof.
  intros Hno Hlen Hdig Hv. split.
  - unfold get_msvcr. rewrite (msc_ver_of_marker a d b Hno Hlen Hdig).
    rewrite (lookup_above_top _ Hv). unfold unknown_version_msg.
    by rewrite of_Z_int_of_digits by (done || lia).
  - apply contains_iff. by exists "Unknown MS Compiler version ", " ".
Qed.

Lemma get_msvcr_above_top_witness :
  get_msvcr "3.14.0 (main) [MSC v.2000 64 bit (AMD64)]"
    = Raise (ValueError "Unknown MS Compiler version 2000 ") /\
  Str.contains "2000" "Unknown MS Compiler version 2000 " = true.
Proof.
  apply (get_msvcr_above_top "3.14.0 (main) [" "2000" " 64 bit (AMD64)]").
  - apply no_marker_by_search. vm_compute. reflexivity.
  - reflexivity.
  - vm_compute. reflexivity.
  - replace (int_of_digits "2000") with 2000 by reflexivity. lia.
Defined.

(** C3: when the marker [MSC v.] followed by four digits occurs nowhere in
    [sys.version], [get_msvcr] returns [None] and raises nothing. *)
Theorem get_msvcr_no_marker (s : string) :
  ~ has_msc_marker s -> get_msvcr s = Return None.
Proof.
  intros Hno. unfold get_msvcr. by rewrite (msc_ver_of_absent s Hno).
Qed.

Lemma get_msvcr_no_marker_witness :
  get_msvcr "3.11.2 (main, Mar 13 2023, 12:18:29) [GCC 12.2.0]" = Return None.
Proof.
  apply get_msvcr_no_marker.
  apply no_marker_by_search. vm_compute. reflexivity.
Defined.

(** C9: when the four digits after the marker spell a number below 1300,
    [get_msvcr] raises the same [ValueError]; and [get_msvcr] returns [None]
    only when the marker occurs nowhere in [sys.version]. *)
Theorem get_msvcr_below_bottom :
  (forall a d b : string,
      ~ has_msc_marker a ->
      String.length d = 4%nat -> Str.all Re.is_digit d = true ->
      int_of_digits d < 1300 ->
      get_msvcr (a +:+ "MSC v." +:+ d +:+ b)
        = Raise (ValueError (unknown_version_msg (int_of_digits d)))) /\
  (forall s : string, get_msvcr s = Return None -> ~ has_msc_marker s).
Proof.
  split.
  - intros a d b Hno Hlen Hdig Hv. unfold get_msvcr.
    rewrite (msc_ver_of_marker a d b Hno Hlen Hdig).
    by rewrite (lookup_below_bottom _ Hv).
  - intros s Hret Hm. apply msc_ver_of_present in Hm as [v Hv].
    unfold get_msvcr in Hret. rewrite Hv in Hret.
    destruct (RangeMap.getitem _msvcr_lookup v) as [libs|[]]; discriminate.
Qed.

Lemma get_msvcr_below_bottom_witness :
  get_msvcr "2.2 (#0, Apr 13 1999) [MSC v.1200 32 bit (Intel)]"
    = Raise (ValueError "Unknown MS Compiler version 1200 ") /\
  ~ has_msc_marker "3.11.2 (main, Mar 13 2023, 12:18:29) [GCC 12.2.0]".
Proof.
  split.
  - apply (proj1 get_msvcr_below_bottom
             "2.2 (#0, Apr 13 1999) [" "1200" " 32 bit (Intel)]").
    + apply no_marker_by_search. vm_compute. reflexivity.
    + reflexivity.
    + vm_compute. reflexivity.
    + replace (int_of_digits "1200") with 1200 by reflexivity. lia.
  - apply (proj2 get_msvcr_below_bottom). vm_compute. reflexivity.
Defined.

(** ** The compiler classes and the helpers *)

Section CompilerProperties.

Variable env : collaborators.

Lemma link_trace (a : link_args) (h : history) :
  CygwinCCompiler_link env a h =
  (discard (unix_link env (h ++ link_warnings a) (with_export_symbols a None)),
   h ++ link_warnings a ++ [UnixLink (with_export_symbols a None)]).
Proof.
  unfold CygwinCCompiler_link, link_warnings, with_export_symbols.
  destruct (truthy (runtime_library_dirs a)); run.
  - destruct (unix_link env _ _); simpl; by rewrite <- !app_assoc.
  - rewrite app_nil_r. destruct (unix_link env _ _); done.
Qed.

Lemma is_cygwincc_calls (cc : string) (h h' : history) (r : result bool) :
  is_cygwincc env cc h = (r, h') ->
  h' = h \/ exists argv, h' = h ++ [CheckOutput argv].
Proof.
  unfold is_cygwincc. run. destruct (shlex_split env cc) as [argv|e].
  - destruct (check_output env h _); intros [= <- <-]; right; by eexists.
  - intros [= <- <-]. by left.
Qed.

Lemma strip_no_lead (s : string) (c : ascii) (t : string) :
  Str.strip s = String c t -> Str.is_space c = false.
Proof.
  unfold Str.strip, Str.rstrip. intros H.
  destruct (lstrip_spec (Str.rev (Str.lstrip s))) as (ws & Hu & _ & _).
  apply (f_equal Str.rev) in H. rewrite rev_involutive, rev_cons in H.
  rewrite H in Hu. apply (f_equal Str.rev) in Hu.
  rewrite rev_involutive, !rev_app in Hu. simpl in Hu.
  destruct (lstrip_spec s) as (_ & _ & _ & Hhd). by rewrite Hu in Hhd.
Qed.

Lemma strip_no_trail (s t : string) (c : ascii) :
  Str.strip s = t +:+ String c "" -> Str.is_space c = false.
Proof.
  unfold Str.strip, Str.rstrip. intros H.
  apply (f_equal Str.rev) in H. rewrite rev_involutive, rev_app in H.
  destruct (lstrip_spec (Str.rev (Str.lstrip s))) as (_ & _ & _ & Hhd).
  by rewrite H in Hhd.
Qed.

(** C4: [CygwinCCompiler.link] called with a non-empty
    [runtime_library_dirs] emits the fixed warning and then calls the Unix
    link, whose outcome is its own; [runtime_library_dir_option] emits the
    warning and returns the empty list of flags for every directory. *)
Theorem cygwin_runtime_library_dirs (a : link_args) (dir : string) (h : history) :
  (truthy (runtime_library_dirs a) = true ->
   CygwinCCompiler_link env a h =
   (discard (unix_link env (h ++ [Warn _runtime_library_dirs_msg])
               (with_export_symbols a None)),
    h ++ [Warn _runtime_library_dirs_msg; UnixLink (with_export_symbols a None)])) /\
  CygwinCCompiler_runtime_library_dir_option dir h =
  (Return [], h ++ [Warn _runtime_library_dirs_msg]).
Proof.
  split; [| done].
  intros Ht. rewrite link_trace. unfold link_warnings. by rewrite Ht.
Qed.

(** C5: [Mingw32CCompiler.runtime_library_dir_option] raises
    [DistutilsPlatformError] with the fixed message for every directory,
    and calls nothing. *)
Theorem mingw32_runtime_library_dir_option (dir : string) (h : history) :
  runtime_library_dir_option Mingw32CCompiler dir h =
  (Raise (DistutilsPlatformError _runtime_library_dirs_msg), h).
Proof. reflexivity. Qed.

(** C6: when the base initialiser has returned and [is_cygwincc] answers
    [True] for [self.cc], the constructor of [Mingw32CCompiler] raises
    [CCompilerError] at once: it has not called [set_executables]. *)
Theorem mingw32_rejects_cygwin (verbose dry_run force : Z)
    (self : gmap string string) (cc : string) (h h' : history) :
  super_init env h verbose dry_run force = Return self ->
  self !! "cc" = Some cc ->
  is_cygwincc env cc (h ++ [SuperInit verbose dry_run force]) = (Return true, h') ->
  Mingw32CCompiler_init env verbose dry_run force h =
  (Raise (CCompilerError "Cygwin gcc cannot be used with --compiler=mingw32"), h') /\
  forall kw, SetExecutables kw ∉ drop (length h) h'.
Proof.
  intros Hsuper Hcc Hcyg. split.
  - unfold Mingw32CCompiler_init, getattr. run.
    rewrite Hsuper, Hcc. simpl. by rewrite Hcyg.
  - intros kw Hin. apply is_cygwincc_calls in Hcyg as [->|[argv ->]].
    + rewrite drop_app_length in Hin.
      apply elem_of_cons in Hin as [[=]|Hin]. by apply elem_of_nil in Hin.
    + rewrite <- app_assoc, drop_app_length in Hin.
      repeat (apply elem_of_cons in Hin as [[=]|Hin]). by apply elem_of_nil in Hin.
Qed.

(** C7, amended: when [sys.version] mentions neither GCC nor Clang and the
    configuration header cannot be opened, or opens and cannot be read,
    [check_config_h] returns [CONFIG_H_UNCERTAIN] with the details
    "couldn't read '<fn>': <strerror>", which contain the error text. *)
Theorem check_config_h_unreadable (sys_version fn : string)
    (strerror : option string) (h h' : history) :
  Str.contains "GCC" sys_version = false ->
  Str.contains "Clang" sys_version = false ->
  get_config_h_filename env h = Return fn ->
  unreadable env (h ++ [GetConfigHFilename]) fn strerror h' ->
  check_config_h env sys_version h =
  (Return (CONFIG_H_UNCERTAIN,
           "couldn't read '" +:+ fn +:+ "': " +:+ Str.of_opt strerror), h') /\
  Str.contains (Str.of_opt strerror)
    ("couldn't read '" +:+ fn +:+ "': " +:+ Str.of_opt strerror) = true.
Proof.
  intros Hgcc Hclang Hfn Hun. split.
  - unfold check_config_h. rewrite Hgcc, Hclang. run. rewrite Hfn.
    destruct Hun as [[Hopen ->]|(Hopen & Hread & Hclose & ->)].
    + by rewrite Hopen.
    + rewrite Hopen. simpl.
      rewrite <- !app_assoc in Hread, Hclose |- *. simpl in Hread, Hclose |- *.
      rewrite Hread. simpl. rewrite <- !app_assoc. simpl.
      by rewrite Hclose.
  - apply contains_iff. exists ("couldn't read '" +:+ fn +:+ "': "), "".
    by rewrite app_empty_r, !app_assoc_s.
Qed.

Lemma is_space_whitespace (c : ascii) :
  Str.is_space c = true <-> In c ascii_whitespace.
Proof.
  unfold Str.is_space. split.
  - intros H. rewrite <- (ascii_N_embedding c).
    assert (N_of_ascii c = 9 \/ N_of_ascii c = 10 \/ N_of_ascii c = 11 \/
            N_of_ascii c = 12 \/ N_of_ascii c = 13 \/ N_of_ascii c = 32)%N
      as Hn.
    { apply orb_true_iff in H as [H|H].
      - apply N.eqb_eq in H. lia.
      - apply andb_true_iff in H as [H1 H2]. apply N.leb_le in H1, H2. lia. }
    destruct Hn as [-> | [-> | [-> | [-> | [-> | ->]]]]]; simpl; tauto.
  - unfold ascii_whitespace. simpl.
    intros [<- | [<- | [<- | [<- | [<- | [<- | []]]]]]]; reflexivity.
Qed.

Lemma all_space_whitespace_only (s : string) :
  Str.all Str.is_space s = true -> whitespace_only s.
Proof.
  unfold whitespace_only. induction s as [|c s IH]; simpl; [done |].
  intros [Hc Hs] % andb_true_iff x [<-|Hx].
  - by apply is_space_whitespace.
  - by apply IH.
Qed.

Lemma strip_no_whitespace_at_ends (s : string) :
  no_whitespace_at_ends (Str.strip s).
Proof.
  split.
  - intros c t Hs Hc % is_space_whitespace.
    apply strip_no_lead in Hs. congruence.
  - intros t c Hs Hc % is_space_whitespace.
    apply strip_no_trail in Hs. congruence.
Qed.

(** C8: [is_cygwincc] runs the words of [cc] followed by [-dumpmachine].
    The captured output is a run of white space, a text [core] without
    white space at its ends, and a run of white space; [is_cygwincc] returns
    [True] exactly when [core] ends with [cygwin]. *)
Theorem is_cygwincc_spec (cc : string) (argv : list string) (out : string)
    (h : history) :
  shlex_split env cc = Return argv ->
  check_output env h (argv ++ ["-dumpmachine"]) = Return out ->
  exists (b : bool) (l core r : string),
    is_cygwincc env cc h = (Return b, h ++ [CheckOutput (argv ++ ["-dumpmachine"])]) /\
    out = l +:+ core +:+ r /\
    whitespace_only l /\ whitespace_only r /\ no_whitespace_at_ends core /\
    (b = true <-> exists pre, core = pre +:+ "cygwin").
Proof.
  intros Hsplit Hout.
  destruct (strip_spec out) as (l & r & Hdec & Hl & Hr).
  exists (Str.endswith "cygwin" (Str.strip out)), l, (Str.strip out), r.
  split; [unfold is_cygwincc; run; by rewrite Hsplit, Hout |].
  split; [done |].
  split; [by apply all_space_whitespace_only |].
  split; [by apply all_space_whitespace_only |].
  split; [apply strip_no_whitespace_at_ends | apply endswith_iff].
Qed.

(** C10: [link], for [CygwinCCompiler] and for [Mingw32CCompiler] that
    inherits it, gives the same outcome and makes the same calls whatever
    [export_symbols] is: the Unix link is called with [export_symbols]
    replaced by [None]. *)
Theorem link_ignores_export_symbols (cls : compiler_class) (a : link_args)
    (e1 e2 : option (list string)) (h : history) :
  link env cls (with_export_symbols a e1) h =
  link env cls (with_export_symbols a e2) h /\
  link env cls (with_export_symbols a e1) h =
  (discard (unix_link env (h ++ link_warnings a) (with_export_symbols a None)),
   h ++ link_warnings a ++ [UnixLink (with_export_symbols a None)]).
Proof.
  destruct cls; simpl; by rewrite !link_trace.
Qed.

End CompilerProperties.

(** ** The properties on the sample hosts *)

Example mingw32_init_on_mingw :
  Mingw32CCompiler_init mingw_host 0 0 0 [] =
  (Return (list_to_map [("cc", "gcc"); ("cxx", "g++"); ("linker_dll", "gcc")]),
   [ SuperInit 0 0 0;
     CheckOutput ["gcc"; "-dumpmachine"];
     SetExecutables
       [ ("compiler", "gcc -O -Wall");
         ("compiler_so", "gcc -mdll -O -Wall");
         ("compiler_cxx", "g++ -O -Wall");
         ("linker_exe", "gcc");
         ("linker_so", "gcc -shared") ] ]).
Proof. vm_compute. reflexivity. Qed.

Example link_without_rpath :
  CygwinCCompiler_link cygwin_host (sample_link None (Some ["PyInit_spam"])) [] =
  (Return tt, [UnixLink (sample_link None None)]).
Proof. reflexivity. Qed.

Lemma cygwin_runtime_library_dirs_witness :
  CygwinCCompiler_link cygwin_host (sample_link (Some ["/opt/lib"]) None) [] =
  (Return tt,
   [Warn _runtime_library_dirs_msg; UnixLink (sample_link (Some ["/opt/lib"]) None)]) /\
  CygwinCCompiler_runtime_library_dir_option "/opt/lib" [] =
  (Return [], [Warn _runtime_library_dirs_msg]).
Proof.
  destruct (cygwin_runtime_library_dirs cygwin_host
              (sample_link (Some ["/opt/lib"]) None) "/opt/lib" []) as [Hlink Hopt].
  split; [apply Hlink; reflexivity | exact Hopt].
Defined.

Lemma mingw32_rejects_cygwin_witness :
  Mingw32CCompiler_init cygwin_host 0 0 0 [] =
  (Raise (CCompilerError "Cygwin gcc cannot be used with --compiler=mingw32"),
   [SuperInit 0 0 0; CheckOutput ["gcc"; "-dumpmachine"]]) /\
  forall kw, SetExecutables kw ∉ [SuperInit 0 0 0; CheckOutput ["gcc"; "-dumpmachine"]].
Proof.
  apply (mingw32_rejects_cygwin cygwin_host 0 0 0
           (list_to_map [("cc", "gcc"); ("cxx", "g++"); ("linker_dll", "gcc")])
           "gcc" []).
  - reflexivity.
  - vm_compute. reflexivity.
  - vm_compute. reflexivity.
Defined.

(** C7 as stated fails: on a Python built with GCC whose [pyconfig.h] is
    missing, [check_config_h] answers [CONFIG_H_OK] and does not look at the
    file. *)
Lemma check_config_h_gcc_missing_header :
  get_config_h_filename cygwin_host [] = Return "/usr/include/python3.9/pyconfig.h" /\
  unreadable cygwin_host [GetConfigHFilename] "/usr/include/python3.9/pyconfig.h"
    (Some "No such file or directory")
    [GetConfigHFilename; Open "/usr/include/python3.9/pyconfig.h"] /\
  check_config_h cygwin_host cygwin_python [] =
    (Return (CONFIG_H_OK, "sys.version mentions 'GCC'"), []) /\
  CONFIG_H_OK <> CONFIG_H_UNCERTAIN.
Proof.
  split; [reflexivity |]. split; [by left |]. split; [reflexivity | discriminate].
Qed.

Lemma check_config_h_unreadable_witness :
  check_config_h cygwin_host msvc_python [] =
  (Return (CONFIG_H_UNCERTAIN,
           "couldn't read '/usr/include/python3.9/pyconfig.h': No such file or directory"),
   [GetConfigHFilename; Open "/usr/include/python3.9/pyconfig.h"]) /\
  Str.contains "No such file or directory"
    "couldn't read '/usr/include/python3.9/pyconfig.h': No such file or directory" = true.
Proof.
  apply (check_config_h_unreadable cygwin_host msvc_python
           "/usr/include/python3.9/pyconfig.h" (Some "No such file or directory") []).
  - vm_compute. reflexivity.
  - vm_compute. reflexivity.
  - reflexivity.
  - left. split; reflexivity.
Defined.


(** * Further properties *)

(** ** [get_msvcr] on every input *)

Lemma has_msc_marker_empty : ~ has_msc_marker "".
Proof. intros (a & d & b & H & _). destruct a; discriminate. Qed.

Lemma msc_ver_of_Return (s : string) (v : Z) :
  msc_ver_of s = Return v -> has_msc_marker s /\ 0 <= v <= 9999.
Proof.
  unfold msc_ver_of.
  destruct (Re.search msc_prefix msc_group s) as [g|] eqn:Hs; [| done].
  intros [= <-].
  apply search_Some in Hs
    as (a & m & b & -> & -> % matches_literal & [Hl Hd] % matches_msc_group).
  split; [by exists a, g, b | by apply int_of_digits_bounds].
Qed.

Lemma range_of_version (v : Z) :
  1300 <= v < 2000 ->
  exists lo hi libs, (lo, hi, libs) ∈ defined_ranges /\ lo <= v < hi.
Proof.
  intros Hv.
  assert (v < 1310 \/ 1310 <= v < 1400 \/ 1400 <= v < 1500 \/ 1500 <= v < 1600 \/
          1600 <= v < 1700 \/ 1700 <= v < 1800 \/ 1800 <= v < 1900 \/ 1900 <= v)
    as Hcase by lia.
  destruct Hcase as [H|[H|[H|[H|[H|[H|[H|H]]]]]]];
    [ exists 1300, 1310, ["msvcr70"] | exists 1310, 1400, ["msvcr71"]
    | exists 1400, 1500, ["msvcr80"] | exists 1500, 1600, ["msvcr90"]
    | exists 1600, 1700, ["msvcr100"] | exists 1700, 1800, ["msvcr110"]
    | exists 1800, 1900, ["msvcr120"] | exists 1900, 2000, ["vcruntime140"] ];
    (split; [| lia]); unfold defined_ranges;
    repeat first [apply list_elem_of_here | apply list_elem_of_further].
Qed.

(** X1: on every [sys.version], [get_msvcr] returns [None] (no marker),
    returns the list of the range that holds the version, or raises
    [ValueError] for a version below 1300 or from 2000 on; nothing else. *)
Theorem get_msvcr_outcomes (s : string) :
  (~ has_msc_marker s /\ get_msvcr s = Return None) \/
  (exists v, has_msc_marker s /\ msc_ver_of s = Return v /\ 0 <= v <= 9999 /\
     ((exists lo hi libs, (lo, hi, libs) ∈ defined_ranges /\ lo <= v < hi /\
         get_msvcr s = Return (Some libs)) \/
      ((v < 1300 \/ 2000 <= v) /\
       get_msvcr s = Raise (ValueError (unknown_version_msg v))))).
Proof.
  destruct (msc_ver_of s) as [v|e] eqn:Hv.
  - right. exists v. destruct (msc_ver_of_Return s v Hv) as [Hm Hb].
    split; [done |]. split; [done |]. split; [done |].
    unfold get_msvcr. rewrite Hv.
    destruct (Z_lt_dec v 1300) as [Hlo|Hlo];
      [right; split; [lia |]; by rewrite (lookup_below_bottom v Hlo) |].
    destruct (Z_le_dec 2000 v) as [Hhi|Hhi];
      [right; split; [lia |]; by rewrite (lookup_above_top v Hhi) |].
    left. destruct (range_of_version v ltac:(lia)) as (lo & hi & libs & Hin & Hr).
    exists lo, hi, libs. by rewrite (lookup_in_range lo hi v libs Hin Hr).
  - left. unfold msc_ver_of in Hv.
    destruct (Re.search msc_prefix msc_group s) as [g|] eqn:Hs; [done |].
    injection Hv as <-. split.
    + by apply no_marker_by_search.
    + unfold get_msvcr, msc_ver_of. by rewrite Hs.
Qed.

(** X2: only the first marker counts: what stands before it (without a
    marker of its own) and whatever follows its four digits, a later
    marker included, do not change the result of [get_msvcr]. *)
Theorem get_msvcr_first_marker (a d b : string) :
  ~ has_msc_marker a ->
  String.length d = 4%nat -> Str.all Re.is_digit d = true ->
  get_msvcr (a +:+ "MSC v." +:+ d +:+ b) = get_msvcr ("MSC v." +:+ d).
Proof.
  intros Hno Hlen Hdig. unfold get_msvcr.
  rewrite (msc_ver_of_marker a d b Hno Hlen Hdig).
  replace ("MSC v." +:+ d) with ("" +:+ "MSC v." +:+ d +:+ "")
    by (by rewrite app_empty_r).
  by rewrite (msc_ver_of_marker "" d "" has_msc_marker_empty Hlen Hdig).
Qed.

Lemma get_msvcr_first_marker_witness :
  get_msvcr "3.8.0 [MSC v.1916 64 bit (AMD64)] built next to MSC v.1300"
  = get_msvcr "MSC v.1916".
Proof.
  apply (get_msvcr_first_marker "3.8.0 [" "1916"
           " 64 bit (AMD64)] built next to MSC v.1300").
  - apply no_marker_by_search. vm_compute. reflexivity.
  - reflexivity.
  - vm_compute. reflexivity.
Defined.

(** ** White space around the compiler's answer *)

Lemma lstrip_spaces (l x : string) :
  Str.all Str.is_space l = true -> Str.lstrip (l +:+ x) = Str.lstrip x.
Proof.
  induction l as [|c l IH]; simpl; [done |].
  intros [Hc Hl] % andb_true_iff. rewrite Hc. by apply IH.
Qed.

Lemma lstrip_fixed (x : string) : starts_with_space x = false -> Str.lstrip x = x.
Proof. destruct x as [|c x]; simpl; [done |]. by intros ->. Qed.

Lemma strip_padded (l core r : string) :
  Str.all Str.is_space l = true -> Str.all Str.is_space r = true ->
  trimmed core = true ->
  Str.strip (l +:+ core +:+ r) = core.
Proof.
  intros Hl Hr [Hhd Htl] % andb_true_iff.
  apply negb_true_iff in Hhd, Htl.
  unfold Str.strip, Str.rstrip. rewrite (lstrip_spaces l _ Hl).
  destruct core as [|c core].
  - simpl. rewrite <- (app_empty_r r), (lstrip_spaces r "" Hr). done.
  - assert (Str.lstrip (String c core +:+ r) = String c core +:+ r) as ->
      by (by apply lstrip_fixed).
    rewrite rev_app, lstrip_spaces by (by rewrite all_rev).
    rewrite (lstrip_fixed _ Htl). apply rev_involutive.
Qed.

Lemma strip_length (s : string) : (String.length (Str.strip s) <= String.length s)%nat.
Proof.
  destruct (strip_spec s) as (l & r & Hs & _).
  rewrite Hs at 2. rewrite !app_length_s. lia.
Qed.

Section FurtherCompilerProperties.

Variable env : collaborators.

(** *** [is_cygwincc] *)

(** X3: white space around the compiler's answer does not matter:
    when the output is a trimmed text between two runs of white space,
    [is_cygwincc] returns [True] exactly when that text ends with
    [cygwin]. *)
Theorem is_cygwincc_padded (cc : string) (argv : list string)
    (l core r : string) (h : history) :
  shlex_split env cc = Return argv ->
  check_output env h (argv ++ ["-dumpmachine"]) = Return (l +:+ core +:+ r) ->
  Str.all Str.is_space l = true -> Str.all Str.is_space r = true ->
  trimmed core = true ->
  exists b : bool,
    is_cygwincc env cc h = (Return b, h ++ [CheckOutput (argv ++ ["-dumpmachine"])]) /\
    (b = true <-> exists pre, core = pre +:+ "cygwin").
Proof.
  intros Hsplit Hout Hl Hr Hcore. exists (Str.endswith "cygwin" core). split.
  - unfold is_cygwincc. run. rewrite Hsplit, Hout. simpl.
    by rewrite (strip_padded l core r Hl Hr Hcore).
  - apply endswith_iff.
Qed.

(** X4: an answer of fewer than six bytes, the empty one included, is not
    taken for Cygwin. *)
Theorem is_cygwincc_short_output (cc : string) (argv : list string)
    (out : string) (h : history) :
  shlex_split env cc = Return argv ->
  check_output env h (argv ++ ["-dumpmachine"]) = Return out ->
  (String.length out < 6)%nat ->
  is_cygwincc env cc h = (Return false, h ++ [CheckOutput (argv ++ ["-dumpmachine"])]).
Proof.
  intros Hsplit Hout Hlen. unfold is_cygwincc. run. rewrite Hsplit, Hout. simpl.
  destruct (Str.endswith "cygwin" (Str.strip out)) eqn:He; [| done].
  apply endswith_iff in He as [pre He].
  pose proof (strip_length out) as Hs. rewrite He, app_length_s in Hs.
  simpl in Hs. lia.
Qed.

(** X5: [is_cygwincc] hands on the errors of its two steps: when the
    command cannot be split no process is run, and when the process fails
    its error is the outcome. *)
Theorem is_cygwincc_errors (cc : string) (e : exn) (h : history) :
  (shlex_split env cc = Raise e -> is_cygwincc env cc h = (Raise e, h)) /\
  (forall argv,
      shlex_split env cc = Return argv ->
      check_output env h (argv ++ ["-dumpmachine"]) = Raise e ->
      is_cygwincc env cc h = (Raise e, h ++ [CheckOutput (argv ++ ["-dumpmachine"])])).
Proof.
  split.
  - intros Hsplit. unfold is_cygwincc. run. by rewrite Hsplit.
  - intros argv Hsplit Hout. unfold is_cygwincc. run. by rewrite Hsplit, Hout.
Qed.

(** *** [link] *)

(** X6: with no runtime library directories, [None] or the empty list,
    [link] warns of nothing: its only call is the Unix link. *)
Theorem link_no_runtime_library_dirs (cls : compiler_class) (a : link_args)
    (h : history) :
  runtime_library_dirs a = None \/ runtime_library_dirs a = Some [] ->
  link env cls a h =
  (discard (unix_link env h (with_export_symbols a None)),
   h ++ [UnixLink (with_export_symbols a None)]).
Proof.
  intros Hdirs.
  assert (link_warnings a = []) as Hw
    by (unfold link_warnings; destruct Hdirs as [-> | ->]; done).
  destruct cls; simpl; rewrite link_trace, Hw; simpl; by rewrite app_nil_r.
Qed.

(** *** [Mingw32CCompiler.__init__] *)

Lemma is_cygwincc_no_set_executables (cc : string) (c : call) (h h' : history)
    (r : result bool) (kw : list (string * string)) :
  is_cygwincc env cc (h ++ [c]) = (r, h') ->
  c <> SetExecutables kw ->
  SetExecutables kw ∉ drop (length h) h'.
Proof.
  intros Hcyg Hc Hin. apply is_cygwincc_calls in Hcyg as [->|[argv ->]].
  - rewrite drop_app_length in Hin.
    apply elem_of_cons in Hin as [<-|Hin]; [done | by apply elem_of_nil in Hin].
  - rewrite <- app_assoc, drop_app_length in Hin.
    apply elem_of_cons in Hin as [<-|Hin]; [done |].
    apply elem_of_cons in Hin as [[=]|Hin]. by apply elem_of_nil in Hin.
Qed.

(** X7: when [is_cygwincc] answers [False] and [self] has the attributes
    [cc], [cxx] and [linker_dll], the constructor calls [set_executables]
    once, last, with the five command lines built from them, and returns
    (or raises what [set_executables] raises). *)
Theorem mingw32_init_configures (verbose dry_run force : Z)
    (self : gmap string string) (cc cxx linker_dll : string) (h h' : history) :
  super_init env h verbose dry_run force = Return self ->
  self !! "cc" = Some cc ->
  self !! "cxx" = Some cxx ->
  self !! "linker_dll" = Some linker_dll ->
  is_cygwincc env cc (h ++ [SuperInit verbose dry_run force]) = (Return false, h') ->
  Mingw32CCompiler_init env verbose dry_run force h =
  (match set_executables env h' (mingw32_executables cc cxx linker_dll) with
   | Return _ => Return self
   | Raise e => Raise e
   end,
   h' ++ [SetExecutables (mingw32_executables cc cxx linker_dll)]).
Proof.
  intros Hsuper Hcc Hcxx Hdll Hcyg.
  unfold Mingw32CCompiler_init, getattr, mingw32_executables. run.
  rewrite Hsuper, Hcc. simpl. rewrite Hcyg, Hcxx, Hdll.
  by destruct (set_executables env h' _).
Qed.

(** X8: the constructor calls [set_executables] only after the base
    initialiser has returned and [is_cygwincc] has answered [False] for
    [self.cc]. *)
Theorem mingw32_set_executables_guarded (verbose dry_run force : Z)
    (kw : list (string * string)) (h : history) :
  SetExecutables kw ∈
    drop (length h) (snd (Mingw32CCompiler_init env verbose dry_run force h)) ->
  exists self cc h',
    super_init env h verbose dry_run force = Return self /\
    self !! "cc" = Some cc /\
    is_cygwincc env cc (h ++ [SuperInit verbose dry_run force]) = (Return false, h').
Proof.
  unfold Mingw32CCompiler_init, getattr. run.
  destruct (super_init env h verbose dry_run force) as [self|e]; simpl.
  - destruct (self !! "cc") as [cc|] eqn:Hcc; simpl.
    + destruct (is_cygwincc env cc (h ++ [SuperInit verbose dry_run force]))
        as [[[|]|e] h'] eqn:Hcyg; simpl.
      * intros Hin. exfalso.
        by eapply is_cygwincc_no_set_executables; [exact Hcyg | | exact Hin].
      * intros _. by exists self, cc, h'.
      * intros Hin. exfalso.
        by eapply is_cygwincc_no_set_executables; [exact Hcyg | | exact Hin].
    + rewrite drop_app_length.
      intros [[=]|Hin] % elem_of_cons. by apply elem_of_nil in Hin.
  - rewrite drop_app_length.
    intros [[=]|Hin] % elem_of_cons. by apply elem_of_nil in Hin.
Qed.

End FurtherCompilerProperties.

(** ** [check_config_h] *)

Section ConfigHeader.

Variable env : collaborators.

(** X9: when [sys.version] mentions GCC or Clang, [check_config_h] answers
    [CONFIG_H_OK] and calls nothing: the header is not looked for. *)
Theorem check_config_h_by_version (sys_version : string) (h : history) :
  (exists pre post, sys_version = pre +:+ "GCC" +:+ post) \/
  (exists pre post, sys_version = pre +:+ "Clang" +:+ post) ->
  exists details,
    check_config_h env sys_version h = (Return (CONFIG_H_OK, details), h) /\
    (details = "sys.version mentions 'GCC'" \/
     details = "sys.version mentions 'Clang'").
Proof.
  rewrite <- !contains_iff. intros Hv. unfold check_config_h.
  destruct (Str.contains "GCC" sys_version); [eexists; split; [done | by left] |].
  destruct Hv as [Hv|Hv]; [done |]. rewrite Hv.
  eexists; split; [done | by right].
Qed.

(** X10: when the header is read and closed, the answer is
    [CONFIG_H_OK] if its text contains [__GNUC__] and [CONFIG_H_NOTOK] if
    not, and the calls are: find the name, open, read, close. *)
Theorem check_config_h_readable (sys_version fn text : string) (h : history) :
  Str.contains "GCC" sys_version = false ->
  Str.contains "Clang" sys_version = false ->
  get_config_h_filename env h = Return fn ->
  file_open env (h ++ [GetConfigHFilename]) fn = Return tt ->
  file_read env (h ++ [GetConfigHFilename; Open fn]) fn = Return text ->
  file_close env (h ++ [GetConfigHFilename; Open fn; Read fn]) fn = Return tt ->
  exists answer,
    check_config_h env sys_version h =
    (Return answer, h ++ [GetConfigHFilename; Open fn; Read fn; Close fn]) /\
    ((exists pre post, text = pre +:+ "__GNUC__" +:+ post) ->
     answer = mentions_gnuc fn) /\
    (~ (exists pre post, text = pre +:+ "__GNUC__" +:+ post) ->
     answer = does_not_mention_gnuc fn).
Proof.
  intros Hgcc Hclang Hfn Hopen Hread Hclose.
  exists (if Str.contains "__GNUC__" text
          then mentions_gnuc fn else does_not_mention_gnuc fn).
  split.
  - unfold check_config_h. rewrite Hgcc, Hclang. run. rewrite Hfn, Hopen. simpl.
    rewrite <- ?app_assoc. simpl. rewrite Hread.
    destruct (Str.contains "__GNUC__" text); simpl;
      rewrite <- ?app_assoc; simpl; by rewrite Hclose.
  - destruct (Str.contains "__GNUC__" text) eqn:Hg; split; try done.
    + intros Hno. exfalso. by apply Hno, contains_iff.
    + intros Hyes % contains_iff. congruence.
Qed.

(** X11: once the header is open it is closed, whatever reading it does:
    the calls are always find the name, open, read, close. *)
Theorem check_config_h_closes (sys_version fn : string) (h : history) :
  Str.contains "GCC" sys_version = false ->
  Str.contains "Clang" sys_version = false ->
  get_config_h_filename env h = Return fn ->
  file_open env (h ++ [GetConfigHFilename]) fn = Return tt ->
  snd (check_config_h env sys_version h) =
  h ++ [GetConfigHFilename; Open fn; Read fn; Close fn].
Proof.
  intros Hgcc Hclang Hfn Hopen.
  unfold check_config_h. rewrite Hgcc, Hclang. run. rewrite Hfn, Hopen. simpl.
  rewrite <- ?app_assoc. simpl.
  destruct (file_read env _ fn) as [text|e]; simpl.
  - destruct (Str.contains "__GNUC__" text); simpl;
      rewrite <- ?app_assoc; simpl;
      by destruct (file_close env _ fn) as [[]|[]].
  - rewrite <- ?app_assoc; simpl.
    by destruct (file_close env _ fn) as [[]|[]], e.
Qed.


End ConfigHeader.

(** ** The class attribute [executables] *)

(** X13: the last statement of the module writes through to the base
    class: when the base class binds [executables] to a dictionary, that
    one dictionary gets ["preprocessor"] set to [["/usr/bin/cpp"]], it is
    what all three classes see as [executables], and its other entries and
    all other dictionaries are as before. *)
Theorem set_preprocessor_shared (r : nat)
    (heap : gmap nat (gmap string (option (list string))))
    (d : gmap string (option (list string))) :
  heap !! r = Some d ->
  exists st,
    set_preprocessor (module_classes (Some r) heap) = Return st /\
    (forall k, class_executables st k = Return r) /\
    dicts st !! r = Some (<["preprocessor" := Some ["/usr/bin/cpp"]]> d) /\
    (forall key, key <> "preprocessor" ->
       dicts st !! r ≫= (.!! key) = d !! key) /\
    (forall r', r' <> r -> dicts st !! r' = heap !! r').
Proof.
  intros Hr. eexists. split; [reflexivity |]. simpl.
  split; [by intros [|[]] |].
  split; [by rewrite lookup_alter_eq, Hr |].
  split.
  - intros key Hkey. rewrite lookup_alter_eq, Hr. simpl.
    by rewrite lookup_insert_ne.
  - intros r' Hr'. by rewrite lookup_alter_ne.
Qed.

(** ** The further properties on the sample hosts *)

Lemma is_cygwincc_padded_witness :
  exists b : bool,
    is_cygwincc cygwin_host "gcc" [] = (Return b, [CheckOutput ["gcc"; "-dumpmachine"]]) /\
    (b = true <-> exists pre, "x86_64-pc-cygwin" = pre +:+ "cygwin").
Proof.
  apply (is_cygwincc_padded cygwin_host "gcc" ["gcc"] "" "x86_64-pc-cygwin" newline []).
  - vm_compute. reflexivity.
  - reflexivity.
  - reflexivity.
  - vm_compute. reflexivity.
  - vm_compute. reflexivity.
Defined.

Lemma is_cygwincc_short_output_witness :
  is_cygwincc silent_host "gcc" [] =
  (Return false, [CheckOutput ["gcc"; "-dumpmachine"]]).
Proof.
  apply (is_cygwincc_short_output silent_host "gcc" ["gcc"] "" []).
  - vm_compute. reflexivity.
  - reflexivity.
  - simpl. lia.
Defined.

Lemma is_cygwincc_errors_witness :
  is_cygwincc bare_host "gcc 'x" [] = (Raise (ValueError "No closing quotation"), []) /\
  is_cygwincc bare_host "gcc" [] =
  (Raise (OtherError "FileNotFoundError"), [CheckOutput ["gcc"; "-dumpmachine"]]).
Proof.
  split.
  - apply (proj1 (is_cygwincc_errors bare_host "gcc 'x"
                    (ValueError "No closing quotation") [])).
    vm_compute. reflexivity.
  - apply (proj2 (is_cygwincc_errors bare_host "gcc"
                    (OtherError "FileNotFoundError") []) ["gcc"]).
    + vm_compute. reflexivity.
    + reflexivity.
Defined.

Lemma link_no_runtime_library_dirs_witness :
  link cygwin_host Mingw32CCompiler (sample_link (Some []) (Some ["PyInit_spam"])) [] =
  (Return tt, [UnixLink (sample_link (Some []) None)]).
Proof.
  apply (link_no_runtime_library_dirs cygwin_host Mingw32CCompiler
           (sample_link (Some []) (Some ["PyInit_spam"])) []).
  right. reflexivity.
Defined.

Lemma mingw32_init_configures_witness :
  Mingw32CCompiler_init mingw_host 0 0 0 [] =
  (Return (list_to_map [("cc", "gcc"); ("cxx", "g++"); ("linker_dll", "gcc")]),
   [ SuperInit 0 0 0; CheckOutput ["gcc"; "-dumpmachine"];
     SetExecutables (mingw32_executables "gcc" "g++" "gcc") ]).
Proof.
  apply (mingw32_init_configures mingw_host 0 0 0
           (list_to_map [("cc", "gcc"); ("cxx", "g++"); ("linker_dll", "gcc")])
           "gcc" "g++" "gcc" []
           [SuperInit 0 0 0; CheckOutput ["gcc"; "-dumpmachine"]]).
  - reflexivity.
  - vm_compute. reflexivity.
  - vm_compute. reflexivity.
  - vm_compute. reflexivity.
  - vm_compute. reflexivity.
Defined.

Lemma mingw32_set_executables_guarded_witness :
  exists self cc h',
    super_init mingw_host [] 0 0 0 = Return self /\
    self !! "cc" = Some cc /\
    is_cygwincc mingw_host cc [SuperInit 0 0 0] = (Return false, h').
Proof.
  apply (mingw32_set_executables_guarded mingw_host 0 0 0
           (mingw32_executables "gcc" "g++" "gcc") []).
  vm_compute. do 2 apply list_elem_of_further. apply list_elem_of_here.
Defined.

Lemma check_config_h_by_version_witness :
  exists details,
    check_config_h cygwin_host cygwin_python [] = (Return (CONFIG_H_OK, details), []) /\
    (details = "sys.version mentions 'GCC'" \/
     details = "sys.version mentions 'Clang'").
Proof.
  apply (check_config_h_by_version cygwin_host cygwin_python []).
  left. exists "3.9.16 (main, Mar  8 2023, 22:47:22) [", " 11.3.0]". reflexivity.
Defined.

Lemma check_config_h_readable_witness :
  exists answer,
    check_config_h (mingw_host_with_header "#ifdef __GNUC__") msvc_python [] =
    (Return answer,
     [ GetConfigHFilename; Open "/usr/include/python3.9/pyconfig.h";
       Read "/usr/include/python3.9/pyconfig.h";
       Close "/usr/include/python3.9/pyconfig.h" ]) /\
    ((exists pre post, "#ifdef __GNUC__" = pre +:+ "__GNUC__" +:+ post) ->
     answer = mentions_gnuc "/usr/include/python3.9/pyconfig.h") /\
    (~ (exists pre post, "#ifdef __GNUC__" = pre +:+ "__GNUC__" +:+ post) ->
     answer = does_not_mention_gnuc "/usr/include/python3.9/pyconfig.h").
Proof.
  apply (check_config_h_readable (mingw_host_with_header "#ifdef __GNUC__")
           msvc_python "/usr/include/python3.9/pyconfig.h" "#ifdef __GNUC__" []).
  - vm_compute. reflexivity.
  - vm_compute. reflexivity.
  - reflexivity.
  - reflexivity.
  - reflexivity.
  - reflexivity.
Defined.

Lemma check_config_h_closes_witness :
  snd (check_config_h (mingw_host_with_header "") msvc_python []) =
  [ GetConfigHFilename; Open "/usr/include/python3.9/pyconfig.h";
    Read "/usr/include/python3.9/pyconfig.h";
    Close "/usr/include/python3.9/pyconfig.h" ].
Proof.
  apply (check_config_h_closes (mingw_host_with_header "") msvc_python
           "/usr/include/python3.9/pyconfig.h" []).
  - vm_compute. reflexivity.
  - vm_compute. reflexivity.
  - reflexivity.
  - reflexivity.
Defined.


Lemma set_preprocessor_shared_witness :
  exists st,
    set_preprocessor (module_classes (Some 7%nat) {[ 7%nat := unix_executables_dict ]})
      = Return st /\
    (forall k, class_executables st k = Return 7%nat) /\
    dicts st !! 7%nat =
      Some (<["preprocessor" := Some ["/usr/bin/cpp"]]> unix_executables_dict) /\
    (forall key, key <> "preprocessor" ->
       dicts st !! 7%nat ≫= (.!! key) = unix_executables_dict !! key) /\
    (forall r', r' <> 7%nat ->
       dicts st !! r' = ({[ 7%nat := unix_executables_dict ]} : gmap nat _) !! r').
Proof.
  apply (set_preprocessor_shared 7 {[ 7%nat := unix_executables_dict ]}
           unix_executables_dict).
  vm_compute. reflexivity.
Defined.

(** ** Failures on the way *)

Section Failures.

Variable env : collaborators.

(** X14: a header that was read but whose [close] fails with an
    [OSError] is reported as [CONFIG_H_UNCERTAIN], with the error text of
    the [close]: the verdict on its text is lost. *)
Theorem check_config_h_close_fails (sys_version fn text : string)
    (strerror : option string) (h : history) :
  Str.contains "GCC" sys_version = false ->
  Str.contains "Clang" sys_version = false ->
  get_config_h_filename env h = Return fn ->
  file_open env (h ++ [GetConfigHFilename]) fn = Return tt ->
  file_read env (h ++ [GetConfigHFilename; Open fn]) fn = Return text ->
  file_close env (h ++ [GetConfigHFilename; Open fn; Read fn]) fn
    = Raise (OSError strerror) ->
  check_config_h env sys_version h =
  (Return (CONFIG_H_UNCERTAIN,
           "couldn't read '" +:+ fn +:+ "': " +:+ Str.of_opt strerror),
   h ++ [GetConfigHFilename; Open fn; Read fn; Close fn]).
Proof.
  intros Hgcc Hclang Hfn Hopen Hread Hclose.
  unfold check_config_h. rewrite Hgcc, Hclang. run. rewrite Hfn, Hopen. simpl.
  rewrite <- ?app_assoc. simpl. rewrite Hread.
  destruct (Str.contains "__GNUC__" text); simpl;
    rewrite <- ?app_assoc; simpl; by rewrite Hclose.
Qed.

(** X15: an error of reading that is not an [OSError] is not turned into
    an answer: the header is closed and the error is raised. *)
Theorem check_config_h_other_error (sys_version fn : string) (e : exn)
    (h : history) :
  Str.contains "GCC" sys_version = false ->
  Str.contains "Clang" sys_version = false ->
  get_config_h_filename env h = Return fn ->
  file_open env (h ++ [GetConfigHFilename]) fn = Return tt ->
  file_read env (h ++ [GetConfigHFilename; Open fn]) fn = Raise e ->
  (forall strerror, e <> OSError strerror) ->
  file_close env (h ++ [GetConfigHFilename; Open fn; Read fn]) fn = Return tt ->
  check_config_h env sys_version h =
  (Raise e, h ++ [GetConfigHFilename; Open fn; Read fn; Close fn]).
Proof.
  intros Hgcc Hclang Hfn Hopen Hread He Hclose.
  unfold check_config_h. rewrite Hgcc, Hclang. run. rewrite Hfn, Hopen. simpl.
  rewrite <- ?app_assoc. simpl. rewrite Hread. simpl.
  rewrite <- ?app_assoc. simpl. rewrite Hclose.
  destruct e; try done. by destruct (He strerror).
Qed.

(** X16: the constructor of [Mingw32CCompiler] stops at the first failure:
    an error of the base initialiser, a missing [self.cc] (before any
    process is run) or an error of [is_cygwincc] is raised, with no call
    after it. *)
Theorem mingw32_init_failures (verbose dry_run force : Z) (h : history) :
  (forall e,
      super_init env h verbose dry_run force = Raise e ->
      Mingw32CCompiler_init env verbose dry_run force h =
      (Raise e, h ++ [SuperInit verbose dry_run force])) /\
  (forall self,
      super_init env h verbose dry_run force = Return self ->
      self !! "cc" = None ->
      Mingw32CCompiler_init env verbose dry_run force h =
      (Raise AttributeError, h ++ [SuperInit verbose dry_run force])) /\
  (forall self cc e h',
      super_init env h verbose dry_run force = Return self ->
      self !! "cc" = Some cc ->
      is_cygwincc env cc (h ++ [SuperInit verbose dry_run force]) = (Raise e, h') ->
      Mingw32CCompiler_init env verbose dry_run force h = (Raise e, h')).
Proof.
  unfold Mingw32CCompiler_init, getattr. run. split; [| split].
  - by intros e ->.
  - by intros self -> ->.
  - intros self cc e h' -> ->. simpl. by intros ->.
Qed.

End Failures.

Lemma check_config_h_close_fails_witness :
  check_config_h
    {| unix_link := unix_link mingw_host;
       super_init := super_init mingw_host;
       set_executables := set_executables mingw_host;
       shlex_split := shlex_split mingw_host;
       check_output := check_output mingw_host;
       get_config_h_filename := get_config_h_filename mingw_host;
       file_open := fun _ _ => Return tt;
       file_read := fun _ _ => Return "#ifdef __GNUC__";
       file_close := fun _ _ => Raise (OSError (Some "Input/output error")) |}
    msvc_python [] =
  (Return (CONFIG_H_UNCERTAIN,
           "couldn't read '/usr/include/python3.9/pyconfig.h': Input/output error"),
   [ GetConfigHFilename; Open "/usr/include/python3.9/pyconfig.h";
     Read "/usr/include/python3.9/pyconfig.h";
     Close "/usr/include/python3.9/pyconfig.h" ]).
Proof.
  apply (check_config_h_close_fails _ msvc_python
           "/usr/include/python3.9/pyconfig.h" "#ifdef __GNUC__"
           (Some "Input/output error") []).
  - vm_compute. reflexivity.
  - vm_compute. reflexivity.
  - reflexivity.
  - reflexivity.
  - reflexivity.
  - reflexivity.
Defined.

Lemma check_config_h_other_error_witness :
  check_config_h
    {| unix_link := unix_link mingw_host;
       super_init := super_init mingw_host;
       set_executables := set_executables mingw_host;
       shlex_split := shlex_split mingw_host;
       check_output := check_output mingw_host;
       get_config_h_filename := get_config_h_filename mingw_host;
       file_open := fun _ _ => Return tt;
       file_read := fun _ _ => Raise (OtherError "UnicodeDecodeError");
       file_close := fun _ _ => Return tt |}
    msvc_python [] =
  (Raise (OtherError "UnicodeDecodeError"),
   [ GetConfigHFilename; Open "/usr/include/python3.9/pyconfig.h";
     Read "/usr/include/python3.9/pyconfig.h";
     Close "/usr/include/python3.9/pyconfig.h" ]).
Proof.
  apply (check_config_h_other_error _ msvc_python
           "/usr/include/python3.9/pyconfig.h" (OtherError "UnicodeDecodeError") []).
  - vm_compute. reflexivity.
  - vm_compute. reflexivity.
  - reflexivity.
  - reflexivity.
  - reflexivity.
  - discriminate.
  - reflexivity.
Defined.

Lemma mingw32_init_failures_witness :
  Mingw32CCompiler_init bare_host 0 0 0 [] =
  (Raise (OtherError "FileNotFoundError"),
   [SuperInit 0 0 0; CheckOutput ["gcc"; "-dumpmachine"]]).
Proof.
  apply (proj2 (proj2 (mingw32_init_failures bare_host 0 0 0 []))
           (list_to_map [("cc", "gcc"); ("cxx", "g++"); ("linker_dll", "gcc")])
           "gcc").
  - reflexivity.
  - vm_compute. reflexivity.
  - vm_compute. reflexivity.
Defined.

(** ** The answer of a Cygwin compiler *)

Lemma no_whitespace_at_ends_unique (l core r l' core' r' : string) :
  l +:+ core +:+ r = l' +:+ core' +:+ r' ->
  whitespace_only l -> whitespace_only r -> no_whitespace_at_ends core ->
  Str.all Str.is_space l' = true -> Str.all Str.is_space r' = true ->
  trimmed core' = true ->
  core' <> "" -> core = core'.
Proof.
  intros Heq Hl Hr [Hhd Htl] Hl' Hr' Hcore' Hne.
  assert (forall s, whitespace_only s -> Str.all Str.is_space s = true) as Hall.
  { induction s as [|c s IH]; [done |]. intros Hs. simpl.
    apply andb_true_iff. split.
    - apply is_space_whitespace, Hs. by left.
    - apply IH. intros x Hx. apply Hs. by right. }
  assert (trimmed core = true) as Hcore.
  { unfold trimmed, starts_with_space. apply andb_true_iff. split.
    - destruct core as [|c t]; [done |]. apply negb_true_iff.
      destruct (Str.is_space c) eqn:Hc; [| done].
      by destruct (Hhd c t eq_refl); apply is_space_whitespace.
    - destruct (Str.rev core) as [|c t] eqn:Hrev; [done |]. apply negb_true_iff.
      destruct (Str.is_space c) eqn:Hc; [| done].
      destruct (Htl (Str.rev t) c); [| by apply is_space_whitespace].
      by rewrite <- (rev_involutive core), Hrev, rev_cons. }
  rewrite <- (strip_padded l core r (Hall l Hl) (Hall r Hr) Hcore).
  rewrite Heq. by apply strip_padded.
Qed.

Lemma is_cygwincc_spec_witness :
  is_cygwincc cygwin_host "gcc" [] =
  (Return true, [CheckOutput ["gcc"; "-dumpmachine"]]).
Proof.
  destruct (is_cygwincc_spec cygwin_host "gcc" ["gcc"]
              ("x86_64-pc-cygwin" +:+ newline) [] eq_refl eq_refl)
    as (b & l & core & r & Hrun & Hout & Hl & Hr & Hcore & Hb).
  assert (core = "x86_64-pc-cygwin") as ->.
  { apply (no_whitespace_at_ends_unique l core r "" "x86_64-pc-cygwin" newline);
      [by rewrite <- Hout | done | done | done | reflexivity | reflexivity
      | reflexivity | discriminate]. }
  assert (b = true) as -> by (apply Hb; by exists "x86_64-pc-").
  exact Hrun.
Defined.
